(** * connector/v03x.py: value codecs, addressing and controller orchestration

    A shallow embedding of the client-side model of the embedded controller:
    the fixed-width value codecs, the container tree and its id-chains, the
    object definitions with the type registry, and the controller methods
    that talk to the device through the protocol object.

    Python values that cross the protocol boundary are kept in the small
    universe [pyval]; exceptions are results [Raise e]; methods that talk to
    the device are computations in the state-and-exception monad [M], whose
    state holds the device, the trace of the calls sent so far and the store
    of the live proxy objects. *)

From stdpp Require Import base option list gmap.
From Stdlib Require Import ZArith Lia.

Local Open Scope Z_scope.

(** ** Exceptions and results *)

Inductive exn :=
  | ValueError
  | TypeError
  | IndexError
  | AttributeError
  | FailedOperationError.

Inductive result (A : Type) :=
  | Ok (a : A)
  | Raise (e : exn).
Arguments Ok {A} a.
Arguments Raise {A} e.

#[global] Instance result_ret : MRet result := @Ok.
#[global] Instance result_bind : MBind result :=
  fun A B f r => match r with Ok a => f a | Raise e => Raise e end.

#[global] Instance exn_eq_dec : EqDecision exn.
Proof. solve_decision. Defined.

(** ** Python values crossing the protocol boundary

    [None], an int, a [bytes] object (its items are ints) and a tuple of
    ints: the shapes taken by payloads, responses and constructor
    arguments. *)

Inductive pyval :=
  | PNone
  | PInt (n : Z)
  | PBytes (b : list Z)
  | PTuple (t : list Z).

#[global] Instance pyval_eq_dec : EqDecision pyval.
Proof. solve_decision. Defined.

(** Truth value of an object: [None], [0] and empty sequences are false. *)
Definition truthy (v : pyval) : bool :=
  match v with
  | PNone => false
  | PInt n => negb (n =? 0)
  | PBytes [] | PTuple [] => false
  | PBytes _ | PTuple _ => true
  end.

(** [v[i]] for a non-negative constant index. *)
Definition getitem (v : pyval) (i : nat) : result Z :=
  match v with
  | PBytes l | PTuple l =>
      match l !! i with
      | Some x => Ok x
      | None => Raise IndexError
      end
  | PNone | PInt _ => Raise TypeError
  end.

(** [v[lo:hi]] for non-negative constant bounds; slicing never raises on a
    sequence and keeps its type. *)
Definition slice (v : pyval) (lo hi : nat) : result pyval :=
  match v with
  | PBytes l => Ok (PBytes (take (hi - lo) (drop lo l)))
  | PTuple l => Ok (PTuple (take (hi - lo) (drop lo l)))
  | PNone | PInt _ => Raise TypeError
  end.

(** [bytearray(n)]: [n] zero bytes. *)
Definition bytearray (n : Z) : list Z := replicate (Z.to_nat n) 0.

(** [buf[i] = x] on a bytearray: the index must be in range and the value
    must be a byte. *)
Definition setitem (buf : list Z) (i : nat) (x : Z) : result (list Z) :=
  if decide (i < length buf)%nat then
    if (0 <=? x) && (x <? 256) then Ok (<[i:=x]> buf) else Raise ValueError
  else Raise IndexError.

(** [int(value / 256)]: true division followed by truncation towards zero.
    The quotient by a power of two is exact in double precision for
    [|value| < 2^53], which covers every width of this module. *)
Definition int_truediv (value d : Z) : Z := Z.quot value d.

(** Modelled from the spec: [signed_byte] of [protocol.v03x], which is not
    part of the sources; it interprets a single byte as signed. *)
Definition signed_byte (b : Z) : Z := if b <? 128 then b else b - 256.

(** Modelled from the spec: [unsigned_byte] of [protocol.v03x], which is not
    part of the sources; it wraps a negative value into the unsigned range
    by adding [2^8]. *)
Definition unsigned_byte (val : Z) : Z := if val <? 0 then val + 256 else val.

(** ** Value codecs *)

Module ValueDecoder.
(** [decode] hands the buffer to the subclass's [_decode]. *)
Definition decode {V} (_decode : pyval -> result V) (buf : pyval) : result V :=
  _decode buf.
End ValueDecoder.

Module ValueEncoder.
(** [encode] allocates [encoded_len()] zero bytes, lets the subclass fill
    them and freezes the buffer. *)
Definition encode {V} (encoded_len : Z)
    (_encode : V -> list Z -> result (list Z)) (value : V) : result pyval :=
  buf ← _encode value (bytearray encoded_len);
  Ok (PBytes buf).
End ValueEncoder.

Module LongDecoder.
Definition encoded_len : Z := 4.
Definition _decode (buf : pyval) : result Z :=
  b3 ← getitem buf 3;
  b2 ← getitem buf 2;
  b1 ← getitem buf 1;
  b0 ← getitem buf 0;
  Ok (((signed_byte b3 * 256 + b2) * 256 + b1) * 256 + b0).
Definition decode := ValueDecoder.decode _decode.
End LongDecoder.

Module ShortDecoder.
Definition encoded_len : Z := 2.
Definition _decode (buf : pyval) : result Z :=
  b1 ← getitem buf 1;
  b0 ← getitem buf 0;
  Ok (signed_byte b1 * 256 + b0).
Definition decode := ValueDecoder.decode _decode.
End ShortDecoder.

Module ByteDecoder.
Definition encoded_len : Z := 1.
Definition _decode (buf : pyval) : result Z :=
  b0 ← getitem buf 0;
  Ok (signed_byte b0).
Definition decode := ValueDecoder.decode _decode.
End ByteDecoder.

Module ByteEncoder.
Definition encoded_len : Z := 1.
Definition _encode (value : Z) (buf : list Z) : result (list Z) :=
  setitem buf 0 (unsigned_byte value).
Definition encode := ValueEncoder.encode encoded_len _encode.
End ByteEncoder.

Module ShortEncoder.
Definition encoded_len : Z := 2.
Definition _encode (value : Z) (buf : list Z) : result (list Z) :=
  let value := if value <? 0 then value + 64 * 1024 else value in
  buf ← setitem buf 1 (unsigned_byte (int_truediv value 256));
  buf ← setitem buf 0 (value `mod` 256);
  Ok buf.
Definition encode := ValueEncoder.encode encoded_len _encode.
End ShortEncoder.

Module LongEncoder.
Definition encoded_len : Z := 4.
(** The body of [for x in range(0, 4)], over the remaining indices. *)
Fixpoint _encode_loop (xs : list nat) (value : Z) (buf : list Z)
    : result (list Z) :=
  match xs with
  | [] => Ok buf
  | x :: xs' =>
      buf ← setitem buf x (value `mod` 256);
      _encode_loop xs' (int_truediv value 256) buf
  end.
Definition _encode (value : Z) (buf : list Z) : result (list Z) :=
  let value := if value <? 0 then value + Z.shiftl 1 32 else value in
  _encode_loop (seq 0 4) value buf.
Definition encode := ValueEncoder.encode encoded_len _encode.
End LongEncoder.

Module BufferDecoder.
Definition decode (buf : pyval) : result pyval := Ok buf.
End BufferDecoder.

Module BufferEncoder.
Definition encode (value : pyval) : result pyval := Ok value.
End BufferEncoder.

(** The little-endian bytes of a non-negative number, [n] of them. *)
Definition little_endian (n : nat) (u : Z) : list Z :=
  (fun i : nat => (u / 256 ^ Z.of_nat i) `mod` 256) <$> seq 0 n.

(** The bias that the encoders add to a negative value. *)
Definition biased (width : Z) (v : Z) : Z :=
  if v <? 0 then v + 2 ^ width else v.

(** ** Containers and id-chains

    A container is either a root or a [Container] proxy placed at a slot of
    another container.  The chain of [Container] proxies is kept as a value:
    nothing in the source ever rebinds the fields of a plain [Container]. *)

Inductive ContainerTraits :=
  | RootContainer
  | Container (container : ContainerTraits) (slot : Z).

#[global] Instance ContainerTraits_eq_dec : EqDecision ContainerTraits.
Proof. solve_decision. Defined.

(** [id_chain] of a container.  For a [Container] it is
    [ContainedObject.id_chain], that is [self.container.id_chain_for(self.slot)],
    written out on the two classes the parent can have. *)
Fixpoint id_chain (c : ContainerTraits) : list Z :=
  match c with
  | RootContainer => []
  | Container parent slot =>
      match parent with
      | RootContainer => [slot]
      | Container _ _ => id_chain parent ++ [slot]
      end
  end.

(** [id_chain_for]: [(slot,)] on a root, [self.id_chain + (slot,)] on a
    [Container]. *)
Definition id_chain_for (c : ContainerTraits) (slot : Z) : list Z :=
  match c with
  | RootContainer => [slot]
  | Container _ _ => id_chain c ++ [slot]
  end.

(** ** Proxy objects

    The fields of a [ContainedObject]; [InstantiableObject.delete] sets the
    three of them to [None]. *)

Inductive Controller := BaseController.

#[global] Instance Controller_eq_dec : EqDecision Controller.
Proof. solve_decision. Defined.

Record ContainedObject := {
  controller : option Controller;
  container : option ContainerTraits;
  slot : option Z
}.

#[global] Instance ContainedObject_eq_dec : EqDecision ContainedObject.
Proof. solve_decision. Defined.

Module ContainedObject.
(** [ContainedObject.__init__]. *)
Definition new (c : ContainerTraits) (s : Z) : ContainedObject :=
  {| controller := Some BaseController; container := Some c; slot := Some s |}.

(** [ContainedObject.id_chain] on a proxy.  A detached proxy has no
    container to ask ([AttributeError] on [None]).  A slot of [None] under
    a live container is never built by the source (delete clears both); the
    chain would then hold [None], which no protocol call accepts. *)
Definition id_chain (self : ContainedObject) : result (list Z) :=
  match container self with
  | None => Raise AttributeError
  | Some c =>
      match slot self with
      | Some s => Ok (id_chain_for c s)
      | None => Raise TypeError
      end
  end.
End ContainedObject.

(** An object with a value: the proxy fields together with the codec methods
    its class inherits.  A class without an encoder has no [encode]
    attribute. *)
Record ValueObject (V : Type) := {
  proxy : ContainedObject;
  encoded_len : Z;
  decode : pyval -> result V;
  encode : V -> result pyval
}.
Arguments proxy {V} _.
Arguments encoded_len {V} _.
Arguments decode {V} _ _.
Arguments encode {V} _ _.

(** [SystemID]: a one-byte buffer, read and written as it is. *)
Definition SystemID (c : ContainerTraits) (s : Z) : ValueObject pyval :=
  {| proxy := ContainedObject.new c s;
     encoded_len := 1;
     decode := BufferDecoder.decode;
     encode := BufferEncoder.encode |}.

(** [PersistChangeValue] as a value: a Short, by [ShortEncoder] and
    [ShortDecoder]. *)
Definition PersistChangeValue_obj (o : ContainedObject) : ValueObject Z :=
  {| proxy := o;
     encoded_len := ShortEncoder.encoded_len;
     decode := ShortDecoder.decode;
     encode := ShortEncoder.encode |}.

(** [PersistentValue] as a value: a buffer of unknown length. *)
Definition PersistentValue_obj (o : ContainedObject) : ValueObject pyval :=
  {| proxy := o;
     encoded_len := 0;
     decode := BufferDecoder.decode;
     encode := BufferEncoder.encode |}.

(** [CurrentTicks] as a value: a Long that can only be read. *)
Definition CurrentTicks_obj (o : ContainedObject) : ValueObject Z :=
  {| proxy := o;
     encoded_len := LongDecoder.encoded_len;
     decode := LongDecoder.decode;
     encode := fun _ => Raise AttributeError |}.

(** ** Object definitions and the type registry *)

Inductive object_type :=
  | CurrentTicks
  | DynamicContainer
  | PersistentValue
  | ValueProfile
  | LogicActuator
  | BangBangController
  | PersistChangeValue.

#[global] Instance object_type_eq_dec : EqDecision object_type.
Proof. solve_decision. Defined.

Definition type_id (cls : object_type) : Z :=
  match cls with
  | CurrentTicks => 3
  | DynamicContainer => 4
  | PersistentValue => 5
  | ValueProfile => 6
  | LogicActuator => 7
  | BangBangController => 8
  | PersistChangeValue => 9
  end.

Module EmptyDefinition.
Definition decode_definition (data_block : pyval) : result pyval :=
  Raise ValueError.
Definition encode_definition (arg : pyval) : result pyval :=
  Raise ValueError.
End EmptyDefinition.

Module NonEmptyBlockDefinition.
Definition encode_definition (arg : pyval) : result pyval :=
  if negb (truthy arg) then Raise ValueError else Ok arg.
Definition decode_definition (data_block : pyval) : result pyval :=
  encode_definition data_block.
End NonEmptyBlockDefinition.

Module PersistChangeValue.
(** [bytes + bytes]; the operands are results of [ShortEncoder.encode]. *)
Definition concat (a b : pyval) : result pyval :=
  match a, b with
  | PBytes x, PBytes y => Ok (PBytes (x ++ y))
  | _, _ => Raise TypeError
  end.

Definition encode_definition (arg : pyval) : result pyval :=
  threshold ← getitem arg 1;
  if threshold <? 0 then Raise ValueError
  else
    a0 ← getitem arg 0;
    e0 ← ShortEncoder.encode a0;
    a1 ← getitem arg 1;
    e1 ← ShortEncoder.encode a1;
    concat e0 e1.

Definition decode_definition (data_block : pyval) : result pyval :=
  b0 ← slice data_block 0 2;
  v ← ShortDecoder.decode b0;
  b1 ← slice data_block 2 4;
  t ← ShortDecoder.decode b1;
  Ok (PTuple [v; t]).
End PersistChangeValue.

(** Method resolution for the two definition methods.  The three classes
    that only carry a [type_id] have neither. *)
Definition encode_definition (cls : object_type) (arg : pyval) : result pyval :=
  match cls with
  | CurrentTicks | DynamicContainer => EmptyDefinition.encode_definition arg
  | PersistentValue => NonEmptyBlockDefinition.encode_definition arg
  | PersistChangeValue => PersistChangeValue.encode_definition arg
  | ValueProfile | LogicActuator | BangBangController => Raise AttributeError
  end.

Definition decode_definition (cls : object_type) (data_block : pyval)
    : result pyval :=
  match cls with
  | CurrentTicks | DynamicContainer =>
      EmptyDefinition.decode_definition data_block
  | PersistentValue => NonEmptyBlockDefinition.decode_definition data_block
  | PersistChangeValue => PersistChangeValue.decode_definition data_block
  | ValueProfile | LogicActuator | BangBangController => Raise AttributeError
  end.

Module BuiltInObjectTypes.
Definition as_id (obj : object_type) : Z := type_id obj.

Definition all_types : list object_type :=
  [CurrentTicks; DynamicContainer; PersistentValue; ValueProfile;
   LogicActuator; BangBangController; PersistChangeValue].

(** [dict((x.type_id, x) for x in all_types)]: a later pair with the same
    key would replace an earlier one. *)
Definition _from_id : gmap Z object_type :=
  foldl (fun m x => <[type_id x := x]> m) ∅ all_types.

(** [_from_id.get(type_id, None)]. *)
Definition from_id (type_id : Z) : option object_type := _from_id !! type_id.
End BuiltInObjectTypes.

Record ObjectReference := {
  ref_controller : Controller;
  ref_container : ContainerTraits;
  ref_slot : Z;
  ref_obj_class : option object_type;
  ref_args : pyval
}.

(** ** Client-side reconstruction of containers *)

(** [BaseController.container_for]: one [Container] proxy per item of the
    chain, starting from the root container. *)
Definition container_for (id_chain : list Z) : ContainerTraits :=
  foldl (fun c x => Container c x) RootContainer id_chain.

(** [(id_chain[:-1], id_chain[-1])]; the last item of an empty chain does not
    exist. *)
Definition container_chain_and_id (id_chain : list Z) : result (list Z * Z) :=
  let prefix := take (length id_chain - 1) id_chain in
  match last id_chain with
  | Some slot => Ok (prefix, slot)
  | None => Raise IndexError
  end.

Definition _container_slot_from_id_chain (id_chain : list Z)
    : result (ContainerTraits * Z) :=
  '(chain_prefix, slot) ← container_chain_and_id id_chain;
  let container := container_for chain_prefix in
  Ok (container, slot).

(** [cls.decode_definition(data)] where [cls] can be [None], which has no
    attributes. *)
Definition _materialize_object_descriptor (id_chain : list Z) (obj_type : Z)
    (data : pyval) : result ObjectReference :=
  '(container, slot) ← _container_slot_from_id_chain id_chain;
  let cls := BuiltInObjectTypes.from_id obj_type in
  args ← (if truthy data then
            match cls with
            | Some c => decode_definition c data
            | None => Raise AttributeError
            end
          else Ok PNone);
  Ok {| ref_controller := BaseController; ref_container := container;
        ref_slot := slot; ref_obj_class := cls; ref_args := args |}.

(** [a or b] on ints. *)
Definition py_or (a b : Z) : Z := if a =? 0 then b else a.

(** The argument of the reset call,
    [1 if erase_eeprom else 0 or 2 if hard_reset else 0]: a conditional
    expression binds weaker than [or], so the expression reads
    [1 if erase_eeprom else ((0 or 2) if hard_reset else 0)]. *)
Definition reset_flags (erase_eeprom hard_reset : bool) : Z :=
  if erase_eeprom then 1 else (if hard_reset then py_or 0 2 else 0).

(** The exception raised by
    [raise ValueError("... %s ... %s ... %s" % args, data, dec)]: the format
    is applied to [args] alone, and it has three places; only a tuple of
    three items fills them, anything else is a [TypeError] of the format
    operator. *)
Definition mismatch_error (args : pyval) : exn :=
  match args with
  | PTuple t => if decide (length t = 3%nat) then ValueError else TypeError
  | PNone | PInt _ | PBytes _ => TypeError
  end.

(** ** The protocol object and its futures *)

Module p.
(** The calls of the protocol object that the controller consumes, with the
    arguments the controller passes; the protocol class itself belongs to
    [protocol.v03x] and is not part of the sources. *)
Inductive command :=
  | read_value (id_chain : list Z) (length : Z)
  | write_value (id_chain : list Z) (buf : pyval)
  | read_system_value (id_chain : list Z) (length : Z)
  | write_system_value (id_chain : list Z) (buf : pyval)
  | create_object (id_chain : list Z) (type_id : Z) (data : pyval)
  | delete_object (id_chain : list Z)
  | next_slot (id_chain : list Z)
  | create_profile
  | delete_profile (profile_id : Z)
  | activate_profile (profile_id : Z)
  | list_profiles
  | list_profile (profile_id : Z)
  | reset (flags : Z).
End p.

#[global] Instance command_eq_dec : EqDecision p.command.
Proof. solve_decision. Defined.

(** Modelled from the spec: [FutureResponse] of [protocol.async], which is
    not part of the sources; a handle to an in-flight request that a blocking
    accessor resolves within the timeout into a value, or into absence. *)
Inductive FutureResponse :=
  | Resolved (v : pyval)
  | TimedOut.

Module FutureResponse.
Definition value (self : FutureResponse) : pyval :=
  match self with
  | Resolved v => v
  | TimedOut => PNone
  end.
End FutureResponse.

(** The device behind the connector: each call moves it to a new state and
    hands back a future, or no future at all. *)
Class Protocol (D : Type) :=
  respond : D -> p.command -> D * option FutureResponse.

(** What the outside world sees of a run: the protocol calls, and the calls
    to the id service. *)
Inductive event :=
  | Sent (c : p.command)
  | AcquireId
  | ReturnId (id : pyval).

#[global] Instance event_eq_dec : EqDecision event.
Proof. solve_decision. Defined.

(** Is the event a call to the device? *)
Definition is_device_call (e : event) : bool :=
  match e with
  | Sent _ => true
  | AcquireId | ReturnId _ => false
  end.

Record world (D : Type) := World {
  device : D;
  trace : list event;
  objects : list ContainedObject
}.
Arguments World {D} _ _ _.
Arguments device {D} _.
Arguments trace {D} _.
Arguments objects {D} _.

(** ** The monad of controller methods *)

Definition M (D A : Type) : Type := world D -> result A * world D.

#[global] Instance M_ret {D} : MRet (M D) := fun A a w => (Ok a, w).
#[global] Instance M_bind {D} : MBind (M D) :=
  fun A B f m w =>
    match m w with
    | (Ok a, w') => f a w'
    | (Raise e, w') => (Raise e, w')
    end.

Definition raise {D A} (e : exn) : M D A := fun w => (Raise e, w).

Definition lift {D A} (r : result A) : M D A := fun w => (r, w).

Definition log {D} (e : event) : M D unit :=
  fun w => (Ok tt, World (device w) (trace w ++ [e]) (objects w)).

(** The proxy behind a reference.  Every reference handed out by [alloc]
    stays valid; the error case is for a reference that was never
    allocated. *)
Definition deref {D} (l : nat) : M D ContainedObject :=
  fun w =>
    match objects w !! l with
    | Some o => (Ok o, w)
    | None => (Raise AttributeError, w)
    end.

Definition assign {D} (l : nat) (o : ContainedObject) : M D unit :=
  fun w => (Ok tt, World (device w) (trace w) (<[l:=o]> (objects w))).

Definition alloc {D} (o : ContainedObject) : M D nat :=
  fun w => (Ok (length (objects w)),
            World (device w) (trace w) (objects w ++ [o])).

Module id_service.
(** Modelled from the spec: [id_service.return_id], which is not part of
    the sources; it returns an id to the global pool. *)
Definition return_id {D} (id : pyval) : M D unit := log (ReturnId id).
End id_service.

Section Controller.
Context {D : Type} `{Protocol D}.

(** [fn( *args )]: the call reaches the device and is recorded. *)
Definition send (fn : p.command) : M D (option FutureResponse) :=
  fun w =>
    let '(d, future) := respond (device w) fn in
    (Ok future, World d (trace w ++ [Sent fn]) (objects w)).

Definition result_from (future : option FutureResponse) : pyval :=
  match future with
  | None => PNone
  | Some f => FutureResponse.value f
  end.

(** The world once [fn] has been sent, and what the blocking accessor
    then yields for it. *)
Definition sent (fn : p.command) (w : world D) : world D :=
  World (respond (device w) fn).1 (trace w ++ [Sent fn]) (objects w).

Definition answer (fn : p.command) (w : world D) : pyval :=
  result_from (respond (device w) fn).2.

(** [error < 0] raises [TypeError] on anything but an int. *)
Definition _handle_error (fn : p.command) (allow_fail : bool) : M D Z :=
  future ← send fn;
  let error := result_from future in
  match error with
  | PInt e =>
      if (e <? 0) && negb allow_fail then raise FailedOperationError
      else mret e
  | PNone | PBytes _ | PTuple _ => raise TypeError
  end.

Definition _fetch_data_block (fn : p.command) : M D pyval :=
  future ← send fn;
  let data := result_from future in
  if negb (truthy data) then raise FailedOperationError
  else mret data.

Definition _root : ContainerTraits := RootContainer.
Definition _sysroot : ContainerTraits := RootContainer.
Definition root_container : ContainerTraits := _root.

Definition system_id : ValueObject pyval := SystemID _sysroot 0.

Definition read_value {V} (obj : ValueObject V) : M D V :=
  id_chain ← lift (ContainedObject.id_chain (proxy obj));
  data ← _fetch_data_block (p.read_value id_chain (encoded_len obj));
  lift (decode obj data).

Definition read_system_value {V} (obj : ValueObject V) : M D V :=
  id_chain ← lift (ContainedObject.id_chain (proxy obj));
  data ← _fetch_data_block (p.read_system_value id_chain (encoded_len obj));
  lift (decode obj data).

Definition _write_value {V} (obj : ValueObject V) (value : V)
    (fn : list Z -> pyval -> p.command) : M D unit :=
  encoded ← lift (encode obj value);
  id_chain ← lift (ContainedObject.id_chain (proxy obj));
  data ← _fetch_data_block (fn id_chain encoded);
  if decide (data ≠ encoded) then raise FailedOperationError
  else mret tt.

Definition write_value {V} (obj : ValueObject V) (value : V) : M D unit :=
  _write_value obj value p.write_value.

Definition write_system_value {V} (obj : ValueObject V) (value : V)
    : M D unit :=
  _write_value obj value p.write_system_value.

(** [ReadWriteSystemObject.read] and [.write]: through the controller
    the proxy points to. *)
Definition ReadWriteSystemObject_read {V} (self : ValueObject V) : M D V :=
  match controller (proxy self) with
  | Some _ => read_system_value self
  | None => raise AttributeError
  end.

Definition ReadWriteSystemObject_write {V} (self : ValueObject V)
    (value : V) : M D unit :=
  match controller (proxy self) with
  | Some _ => write_system_value self value
  | None => raise AttributeError
  end.

Definition initialize (fetch_id : M D pyval) : M D pyval :=
  let id_obj := system_id in
  current_id ← ReadWriteSystemObject_read id_obj;
  first ← lift (getitem current_id 0);
  current_id ← (if first =? 255 then fetch_id else mret current_id);
  _ ← ReadWriteSystemObject_write id_obj current_id;
  mret current_id.

Definition reset (erase_eeprom hard_reset : bool) : M D unit :=
  _ ← (if erase_eeprom then
         current_id ← ReadWriteSystemObject_read system_id;
         id_service.return_id current_id
       else mret tt);
  _ ← _handle_error (p.reset (reset_flags erase_eeprom hard_reset)) false;
  mret tt.

Definition _delete_object_at (id_chain : list Z) (optional : bool)
    : M D unit :=
  _ ← _handle_error (p.delete_object id_chain) optional;
  mret tt.

Definition delete_object (obj : ContainedObject) : M D unit :=
  id_chain ← lift (ContainedObject.id_chain obj);
  _delete_object_at id_chain false.

Definition next_slot (container : ContainerTraits) : M D Z :=
  _handle_error (p.next_slot (id_chain container)) false.

Definition _create_object (container : ContainerTraits)
    (obj_class : object_type) (slot : Z) (data : pyval) : M D unit :=
  (* data or []: the empty sequence stands for the empty list *)
  let data := if truthy data then data else PBytes [] in
  let id_chain := id_chain_for container slot in
  _ ← _handle_error (p.create_object id_chain (type_id obj_class) data) false;
  mret tt.

(** [obj_class(self, container, slot)]: a new proxy; the classes that only
    carry a [type_id] take no constructor arguments. *)
Definition instantiate (obj_class : object_type)
    (container : ContainerTraits) (slot : Z) : M D nat :=
  match obj_class with
  | ValueProfile | LogicActuator | BangBangController => raise TypeError
  | CurrentTicks | DynamicContainer | PersistentValue | PersistChangeValue =>
      alloc (ContainedObject.new container slot)
  end.

Definition create_object (obj_class : object_type) (args : pyval)
    (container : option ContainerTraits) (slot : option Z) : M D nat :=
  let container := default root_container container in
  _ ← match slot with
      | Some s => _delete_object_at (id_chain_for container s) true
      | None => mret tt
      end;
  slot ← match slot with
         | Some s => mret s
         | None => next_slot container
         end;
  data ← lift (if decide (args = PNone) then Ok PNone
               else
                 e ← encode_definition obj_class args;
                 Ok (if truthy e then e else PNone));
  dec ← lift (if truthy args then decode_definition obj_class data
              else Ok args);
  if decide (dec ≠ args) then raise (mismatch_error args)
  else
    _ ← _create_object container obj_class slot data;
    instantiate obj_class container slot.

Definition create_current_ticks (container : option ContainerTraits)
    (slot : option Z) : M D nat :=
  create_object CurrentTicks PNone container slot.

Definition create_dynamic_container (container : option ContainerTraits)
    (slot : option Z) : M D nat :=
  create_object DynamicContainer PNone container slot.

(** [InstantiableObject.delete] on the proxy behind [self]. *)
Definition InstantiableObject_delete (self : nat) : M D unit :=
  o ← deref self;
  match controller o with
  | Some _ =>
      _ ← delete_object o;
      _ ← assign self {| controller := controller o; container := None;
                         slot := slot o |};
      _ ← assign self {| controller := controller o; container := None;
                         slot := None |};
      assign self {| controller := None; container := None; slot := None |}
  | None => mret tt
  end.
End Controller.

(** The definition lines of [create_object] on their own: encode the
    arguments, decode the block again and compare; the result is the data
    block to send. *)
Definition definition_check (obj_class : object_type) (args : pyval)
    : result pyval :=
  data ← (if decide (args = PNone) then Ok PNone
          else
            e ← encode_definition obj_class args;
            Ok (if truthy e then e else PNone));
  dec ← (if truthy args then decode_definition obj_class data else Ok args);
  if decide (dec ≠ args) then Raise (mismatch_error args) else Ok data.

(** The call that [create_object] issues first: the tolerant delete at the
    given slot, or the query for the next free slot. *)
Definition first_call (container : option ContainerTraits) (slot : option Z)
    : p.command :=
  let container := default RootContainer container in
  match slot with
  | Some s => p.delete_object (id_chain_for container s)
  | None => p.next_slot (id_chain container)
  end.

(** The exception with which the first call of [create_object] ends, if it
    does: the delete tolerates a negative code, the slot query does not, and
    neither survives an answer that is not an int. *)
Definition first_call_error (slot : option Z) (answer : pyval) : option exn :=
  match answer with
  | PInt n =>
      match slot with
      | Some _ => None
      | None => if n <? 0 then Some FailedOperationError else None
      end
  | PNone | PBytes _ | PTuple _ => Some TypeError
  end.

(** The device calls of a trace. *)
Definition device_calls (t : list event) : list event :=
  filter (fun e => is_device_call e = true) t.

(** A proxy after [delete]. *)
Definition detached : ContainedObject :=
  {| controller := None; container := None; slot := None |}.

(** ** A scripted device

    It answers the calls in order with the futures of its script, whatever
    the call, and hands back no future once the script is used up. *)
#[global] Instance scripted : Protocol (list (option FutureResponse)) :=
  fun d _ =>
    match d with
    | [] => ([], None)
    | future :: d' => (d', future)
    end.

Definition replies (l : list pyval) : list (option FutureResponse) :=
  (fun v => Some (Resolved v)) <$> l.

(** An id collaborator that hands out the id [42]. *)
Definition acquire_42 {D} : M D pyval :=
  _ ← log AcquireId; mret (PBytes [42]).

(** ** The system time *)

(** The items of the object assigned to a bytearray slice: [bytes], or an
    iterable of ints that are bytes. *)
Definition items (v : pyval) : result (list Z) :=
  match v with
  | PBytes b => Ok b
  | PTuple t =>
      if forallb (fun x => (0 <=? x) && (x <? 256)) t then Ok t
      else Raise ValueError
  | PNone | PInt _ => Raise TypeError
  end.

(** [buf[lo:hi] = b] on a bytearray, for constant bounds [lo <= hi]. *)
Definition setslice (buf : list Z) (lo hi : nat) (b : list Z) : list Z :=
  take lo buf ++ b ++ drop hi buf.

Module SystemTime.
Definition encoded_len : Z := 6.

Definition _decode (buf : pyval) : result (Z * Z) :=
  b ← slice buf 0 4;
  time ← LongDecoder._decode b;
  b ← slice buf 4 6;
  scale ← ShortDecoder._decode b;
  Ok (time, scale).

Definition _encode (value : Z * Z) (buf : list Z) : result (list Z) :=
  let '(time, scale) := value in
  e ← LongEncoder.encode time;
  b ← items e;
  let buf := setslice buf 0 4 b in
  e ← ShortEncoder.encode scale;
  b ← items e;
  let buf := setslice buf 4 6 b in
  Ok buf.

Definition decode := ValueDecoder.decode _decode.
Definition encode := ValueEncoder.encode encoded_len _encode.
End SystemTime.

(** [SystemTime]: a Long and a Short in six bytes. *)
Definition SystemTime (c : ContainerTraits) (s : Z) : ValueObject (Z * Z) :=
  {| proxy := ContainedObject.new c s;
     encoded_len := SystemTime.encoded_len;
     decode := SystemTime.decode;
     encode := SystemTime.encode |}.

(** ** Definitions that take any block *)

Module AnyBlockDefinition.
Definition decode_definition (data_block : pyval) : result pyval :=
  Ok data_block.
(** [arg or b''] *)
Definition encode_definition (arg : pyval) : result pyval :=
  Ok (if truthy arg then arg else PBytes []).
End AnyBlockDefinition.

(** ** Profiles *)

(** A profile proxy; its controller field is the one controller and is never
    rebound. *)
Record Profile := { profile_id : Z }.

#[global] Instance Profile_eq_dec : EqDecision Profile.
Proof. solve_decision. Defined.

Module Profile.
(** [p.profile_id if p else -1] *)
Definition id_for (prof : option Profile) : Z :=
  match prof with
  | Some prof => profile_id prof
  | None => -1
  end.
End Profile.

(** [BaseController.profile_for] *)
Definition profile_for (profile_id : Z) : option Profile :=
  if 0 <=? profile_id then Some {| profile_id := profile_id |} else None.

(** [data[1:]], as the list of its items. *)
Definition items_from_1 (data : pyval) : result (list Z) :=
  match data with
  | PBytes l | PTuple l => Ok (drop 1 l)
  | PNone | PInt _ => Raise TypeError
  end.

(** [BaseController.ref] *)
Definition ref (obj_class : object_type) (args : pyval) (id_chain : list Z)
    : result ObjectReference :=
  '(container, slot) ← _container_slot_from_id_chain id_chain;
  Ok {| ref_controller := BaseController; ref_container := container;
        ref_slot := slot; ref_obj_class := Some obj_class; ref_args := args |}.

Section Profiles.
Context {D : Type} `{Protocol D}.

Definition system_time : ValueObject (Z * Z) := SystemTime _sysroot 1.

Definition create_profile : M D (option Profile) :=
  profile_id ← _handle_error p.create_profile false;
  mret (profile_for profile_id).

(** [p.profile_id] has no value on [None]. *)
Definition delete_profile (prof : option Profile) : M D unit :=
  match prof with
  | Some prof =>
      _ ← _handle_error (p.delete_profile (profile_id prof)) false;
      mret tt
  | None => raise AttributeError
  end.

Definition activate_profile (prof : option Profile) : M D unit :=
  _ ← _handle_error (p.activate_profile (Profile.id_for prof)) false;
  mret tt.

Definition active_and_available_profiles
    : M D (option Profile * list (option Profile)) :=
  future ← send p.list_profiles;
  let data := result_from future in
  first ← lift (getitem data 0);
  let activate := profile_for first in
  rest ← lift (items_from_1 data);
  let available := profile_for <$> rest in
  mret (activate, available).

Definition is_active_profile (prof : Profile) : M D bool :=
  r ← active_and_available_profiles;
  let active := r.1 in
  mret (match active with
        | None => false
        | Some a => bool_decide (profile_id a = profile_id prof)
        end).



(** The methods of a [Profile]. *)
Definition Profile_activate (self : Profile) : M D unit :=
  activate_profile (Some self).

Definition Profile_is_active (self : Profile) : M D bool :=
  is_active_profile self.

Definition Profile_deactivate (self : Profile) : M D unit :=
  active ← Profile_is_active self;
  if (active : bool) then activate_profile None else mret tt.

Definition Profile_delete (self : Profile) : M D unit :=
  delete_profile (Some self).

(** [ReadWriteUserObject.read] and [.write] on the proxy behind [self],
    whose class gives the codec. *)
Definition ReadWriteUserObject_read {V}
    (cls : ContainedObject -> ValueObject V) (self : nat) : M D V :=
  o ← deref self;
  match controller o with
  | Some _ => read_value (cls o)
  | None => raise AttributeError
  end.

Definition ReadWriteUserObject_write {V}
    (cls : ContainedObject -> ValueObject V) (self : nat) (value : V)
    : M D unit :=
  o ← deref self;
  match controller o with
  | Some _ => write_value (cls o) value
  | None => raise AttributeError
  end.
End Profiles.

(** Is the class one that [create_object] can build a proxy of? *)
Definition instantiable (obj_class : object_type) : bool :=
  match obj_class with
  | ValueProfile | LogicActuator | BangBangController => false
  | CurrentTicks | DynamicContainer | PersistentValue | PersistChangeValue =>
      true
  end.

(** The block that [_create_object] sends for the data of a definition. *)
Definition sent_block (data : pyval) : pyval :=
  if truthy data then data else PBytes [].

(** The slot that [create_object] uses: the one it is given, or the one the
    device answers the slot query with. *)
Definition chosen_slot (slot : option Z) (answer : pyval) : Z :=
  match slot with
  | Some s => s
  | None => match answer with PInt n => n | _ => 0 end
  end.

(** What [create_object] leaves behind once its first call is through, when
    the definition check gave [data] and the device answers the create
    command: the result and the world. *)
Definition create_outcome {D} (obj_class : object_type)
    (c : ContainerTraits) (s : Z) (w2 : world D) (answer : pyval)
    : result nat * world D :=
  match answer with
  | PInt code =>
      if code <? 0 then (Raise FailedOperationError, w2)
      else if instantiable obj_class then
        (Ok (length (objects w2)),
         World (device w2) (trace w2)
           (objects w2 ++ [ContainedObject.new c s]))
      else (Raise TypeError, w2)
  | PNone | PBytes _ | PTuple _ => (Raise TypeError, w2)
  end.


(** The value that a buffer of two bytes holds as a Short, and one of four
    bytes as a Long: the two's complement reading. *)
Definition wrap (width : Z) (u : Z) : Z :=
  (u + 2 ^ (width - 1)) mod 2 ^ width - 2 ^ (width - 1).

(** * Properties *)

(** ** Value codecs *)

Lemma setitem_ok (buf : list Z) (i : nat) (x : Z) :
  (i < length buf)%nat -> 0 <= x < 256 -> setitem buf i x = Ok (<[i:=x]> buf).
Proof.
  intros Hi Hx. unfold setitem.
  destruct (decide (i < length buf)%nat) as [_|]; [|lia].
  replace (0 <=? x) with true by (symmetry; apply Z.leb_le; lia).
  replace (x <? 256) with true by (symmetry; apply Z.ltb_lt; lia).
  reflexivity.
Qed.

Lemma signed_unsigned_byte (v : Z) :
  -128 <= v <= 127 -> signed_byte (unsigned_byte v) = v.
Proof.
  intros Hv. unfold signed_byte, unsigned_byte.
  destruct (Z.ltb_spec v 0);
    [destruct (Z.ltb_spec (v + 256) 128) | destruct (Z.ltb_spec v 128)]; lia.
Qed.

Lemma unsigned_byte_range (v : Z) :
  -128 <= v <= 127 -> 0 <= unsigned_byte v < 256.
Proof.
  intros Hv. unfold unsigned_byte. destruct (Z.ltb_spec v 0); lia.
Qed.

Lemma biased_range (width v : Z) :
  0 < width -> - 2 ^ (width - 1) <= v < 2 ^ (width - 1) ->
  0 <= biased width v < 2 ^ width.
Proof.
  intros Hw Hv. unfold biased.
  assert (2 ^ width = 2 * 2 ^ (width - 1)) as ->.
  { rewrite <- Z.pow_succ_r by lia. f_equal. lia. }
  destruct (Z.ltb_spec v 0); lia.
Qed.

(** The biased value is the two's complement of the value on [width] bits. *)
Lemma biased_mod (width v : Z) :
  0 < width -> - 2 ^ (width - 1) <= v < 2 ^ (width - 1) ->
  biased width v = v mod 2 ^ width.
Proof.
  intros Hw Hv. pose proof (biased_range width v Hw Hv) as Hu.
  unfold biased in *. destruct (Z.ltb_spec v 0).
  - apply Z.mod_unique with (q := -1); lia.
  - symmetry. apply Z.mod_small. lia.
Qed.

Lemma byte_encode_bytes (v : Z) :
  -128 <= v <= 127 ->
  ByteEncoder.encode v = Ok (PBytes (little_endian 1 (biased 8 v))).
Proof.
  intros Hv.
  unfold ByteEncoder.encode, ValueEncoder.encode, ByteEncoder._encode.
  change (bytearray ByteEncoder.encoded_len) with [0].
  rewrite setitem_ok by (simpl; auto using unsigned_byte_range with lia).
  simpl. do 3 f_equal.
  unfold little_endian, biased, unsigned_byte. simpl.
  change (256 ^ Z.of_nat 0) with 1. change (2 ^ 8) with 256.
  rewrite Z.div_1_r.
  destruct (Z.ltb_spec v 0); rewrite Z.mod_small by lia; reflexivity.
Qed.

Lemma byte_decode_bytes (v : Z) :
  -128 <= v <= 127 ->
  ByteDecoder.decode (PBytes (little_endian 1 (biased 8 v))) = Ok v.
Proof.
  intros Hv.
  unfold ByteDecoder.decode, ValueDecoder.decode, ByteDecoder._decode.
  unfold little_endian. simpl.
  change (256 ^ Z.of_nat 0) with 1. rewrite Z.div_1_r. f_equal.
  unfold biased, signed_byte. change (2 ^ 8) with 256.
  destruct (Z.ltb_spec v 0); rewrite Z.mod_small by lia;
    [destruct (Z.ltb_spec (v + 256) 128) | destruct (Z.ltb_spec v 128)]; lia.
Qed.

Lemma short_encode_bytes (v : Z) :
  -32768 <= v <= 32767 ->
  ShortEncoder.encode v = Ok (PBytes (little_endian 2 (biased 16 v))).
Proof.
  intros Hv.
  pose proof (biased_range 16 v ltac:(lia) ltac:(simpl; lia)) as Hu.
  change (2 ^ 16) with 65536 in Hu.
  unfold ShortEncoder.encode, ValueEncoder.encode, ShortEncoder._encode.
  change (bytearray ShortEncoder.encoded_len) with [0; 0].
  change (64 * 1024) with (2 ^ 16).
  fold (biased 16 v). set (u := biased 16 v) in *.
  assert (int_truediv u 256 = u / 256) as Hq
    by (unfold int_truediv; apply Z.quot_div_nonneg; lia).
  assert (0 <= u / 256 < 256) as Hhi
    by (split; [apply Z.div_pos; lia | apply Z.div_lt_upper_bound; lia]).
  pose proof (Z.mod_pos_bound u 256 ltac:(lia)) as Hlo.
  rewrite Hq.
  assert (unsigned_byte (u / 256) = u / 256) as ->
    by (unfold unsigned_byte; destruct (Z.ltb_spec (u / 256) 0); lia).
  rewrite setitem_ok by (simpl; lia). simpl.
  rewrite setitem_ok by (simpl; lia). simpl.
  unfold little_endian. simpl.
  rewrite Z.div_1_r.
  change (Z.pow_pos 256 1) with 256.
  rewrite (Z.mod_small (u / 256)) by lia. reflexivity.
Qed.

Lemma short_decode_bytes (v : Z) :
  -32768 <= v <= 32767 ->
  ShortDecoder.decode (PBytes (little_endian 2 (biased 16 v))) = Ok v.
Proof.
  intros Hv.
  pose proof (biased_range 16 v ltac:(lia) ltac:(simpl; lia)) as Hu.
  change (2 ^ 16) with 65536 in Hu.
  unfold ShortDecoder.decode, ValueDecoder.decode, ShortDecoder._decode.
  unfold little_endian. simpl. rewrite Z.div_1_r.
  change (Z.pow_pos 256 1) with 256. f_equal.
  assert (biased 16 v = if v <? 0 then v + 65536 else v) as Hb by reflexivity.
  set (u := biased 16 v) in *.
  assert (0 <= u / 256 < 256) as Hhi
    by (split; [apply Z.div_pos; lia | apply Z.div_lt_upper_bound; lia]).
  rewrite (Z.mod_small (u / 256)) by lia.
  pose proof (Z.div_mod u 256 ltac:(lia)) as Hdm.
  pose proof (Z.mod_pos_bound u 256 ltac:(lia)) as Hlo.
  unfold signed_byte.
  destruct (Z.ltb_spec v 0); destruct (Z.ltb_spec (u / 256) 128); lia.
Qed.

Lemma little_endian_4 (u : Z) :
  little_endian 4 u =
  [u mod 256; (u / 256) mod 256; (u / 256 / 256) mod 256;
   (u / 256 / 256 / 256) mod 256].
Proof.
  unfold little_endian. cbn [seq fmap list_fmap].
  rewrite !Z.div_div by lia.
  change (256 ^ Z.of_nat 0) with 1. rewrite Z.div_1_r. reflexivity.
Qed.

Lemma int_truediv_nonneg (x : Z) : 0 <= x -> int_truediv x 256 = x / 256.
Proof. intros Hx. unfold int_truediv. apply Z.quot_div_nonneg; lia. Qed.

Lemma long_encode_bytes (v : Z) :
  - 2 ^ 31 <= v <= 2 ^ 31 - 1 ->
  LongEncoder.encode v = Ok (PBytes (little_endian 4 (biased 32 v))).
Proof.
  intros Hv.
  pose proof (biased_range 32 v ltac:(lia) ltac:(simpl; lia)) as Hu.
  unfold LongEncoder.encode, ValueEncoder.encode, LongEncoder._encode.
  change (bytearray LongEncoder.encoded_len) with [0; 0; 0; 0].
  change (Z.shiftl 1 32) with (2 ^ 32).
  fold (biased 32 v). set (u := biased 32 v) in *.
  assert (0 <= u / 256) by (apply Z.div_pos; lia).
  assert (0 <= u / 256 / 256) by (apply Z.div_pos; lia).
  cbn [seq LongEncoder._encode_loop].
  rewrite (int_truediv_nonneg u) by lia.
  rewrite (int_truediv_nonneg (u / 256)) by lia.
  rewrite (int_truediv_nonneg (u / 256 / 256)) by lia.
  rewrite setitem_ok by (simpl; auto using Z.mod_pos_bound with lia).
  cbn [mbind result_bind].
  rewrite setitem_ok by (simpl; auto using Z.mod_pos_bound with lia).
  cbn [mbind result_bind].
  rewrite setitem_ok by (simpl; auto using Z.mod_pos_bound with lia).
  cbn [mbind result_bind].
  rewrite setitem_ok by (simpl; auto using Z.mod_pos_bound with lia).
  cbn [mbind result_bind].
  rewrite little_endian_4. reflexivity.
Qed.

Lemma long_decode_bytes (v : Z) :
  - 2 ^ 31 <= v <= 2 ^ 31 - 1 ->
  LongDecoder.decode (PBytes (little_endian 4 (biased 32 v))) = Ok v.
Proof.
  intros Hv.
  pose proof (biased_range 32 v ltac:(lia) ltac:(simpl; lia)) as Hu.
  assert (biased 32 v = if v <? 0 then v + 2 ^ 32 else v) as Hb by reflexivity.
  unfold LongDecoder.decode, ValueDecoder.decode, LongDecoder._decode.
  set (u := biased 32 v) in *.
  rewrite little_endian_4. cbn [getitem lookup list_lookup mbind result_bind].
  f_equal.
  change (2 ^ 32) with 4294967296 in *.
  change (2 ^ 31) with 2147483648 in *.
  unfold signed_byte.
  destruct (Z.ltb_spec v 0);
    destruct (Z.ltb_spec ((u / 256 / 256 / 256) mod 256) 128);
    Z.to_euclidean_division_equations; lia.
Qed.

Example short_encode_minus_one :
  ShortEncoder.encode (-1) = Ok (PBytes [255; 255]).
Proof. reflexivity. Qed.

Example long_encode_min :
  LongEncoder.encode (- 2 ^ 31) = Ok (PBytes [0; 0; 0; 128]).
Proof. reflexivity. Qed.

Example long_decode_max :
  LongDecoder.decode (PBytes [255; 255; 255; 127]) = Ok (2 ^ 31 - 1).
Proof. reflexivity. Qed.

Example byte_encode_min : ByteEncoder.encode (-128) = Ok (PBytes [128]).
Proof. reflexivity. Qed.

Example short_encode_out_of_range :
  ShortEncoder.encode 70000 = Raise ValueError.
Proof. reflexivity. Qed.

(** C5: for every integer representable in the width of the Byte, Short or
    Long codec, [encode] produces exactly [encoded_len()] bytes, the
    little-endian bytes of the two's complement of the value, that is of the
    value with [2^8], [2^16] or [2^32] added when it is negative, and
    [decode] of these bytes gives the value back. *)
Theorem integer_codecs_roundtrip (v : Z) :
  (-128 <= v <= 127 ->
   exists bs,
     ByteEncoder.encode v = Ok (PBytes bs) /\
     Z.of_nat (length bs) = ByteEncoder.encoded_len /\
     bs = little_endian 1 (biased 8 v) /\
     biased 8 v = v mod 2 ^ 8 /\
     ByteDecoder.decode (PBytes bs) = Ok v) /\
  (-32768 <= v <= 32767 ->
   exists bs,
     ShortEncoder.encode v = Ok (PBytes bs) /\
     Z.of_nat (length bs) = ShortEncoder.encoded_len /\
     bs = little_endian 2 (biased 16 v) /\
     biased 16 v = v mod 2 ^ 16 /\
     ShortDecoder.decode (PBytes bs) = Ok v) /\
  (- 2 ^ 31 <= v <= 2 ^ 31 - 1 ->
   exists bs,
     LongEncoder.encode v = Ok (PBytes bs) /\
     Z.of_nat (length bs) = LongEncoder.encoded_len /\
     bs = little_endian 4 (biased 32 v) /\
     biased 32 v = v mod 2 ^ 32 /\
     LongDecoder.decode (PBytes bs) = Ok v).
Proof.
  split; [|split]; intros Hv; eexists.
  - split; [by apply byte_encode_bytes|]. split; [reflexivity|].
    split; [reflexivity|].
    split; [apply biased_mod; simpl; lia | by apply byte_decode_bytes].
  - split; [by apply short_encode_bytes|]. split; [reflexivity|].
    split; [reflexivity|].
    split; [apply biased_mod; simpl; lia | by apply short_decode_bytes].
  - split; [by apply long_encode_bytes|]. split; [reflexivity|].
    split; [reflexivity|].
    split; [apply biased_mod; simpl; lia | by apply long_decode_bytes].
Qed.

Lemma integer_codecs_roundtrip_witness :
  (-128 <= -1 <= 127 /\
   ByteEncoder.encode (-1) = Ok (PBytes [255]) /\
   ByteDecoder.decode (PBytes [255]) = Ok (-1)) /\
  (-32768 <= -32768 <= 32767 /\
   ShortEncoder.encode (-32768) = Ok (PBytes [0; 128]) /\
   ShortDecoder.decode (PBytes [0; 128]) = Ok (-32768)) /\
  (- 2 ^ 31 <= 2 ^ 31 - 1 <= 2 ^ 31 - 1 /\
   LongEncoder.encode (2 ^ 31 - 1) = Ok (PBytes [255; 255; 255; 127]) /\
   LongDecoder.decode (PBytes [255; 255; 255; 127]) = Ok (2 ^ 31 - 1)).
Proof.
  split; [|split].
  - assert (-128 <= -1 <= 127) as Hv by lia. split; [exact Hv|].
    destruct (proj1 (integer_codecs_roundtrip (-1)) Hv)
      as (bs & Henc & _ & -> & _ & Hdec).
    split; [exact Henc | exact Hdec].
  - assert (-32768 <= -32768 <= 32767) as Hv by lia. split; [exact Hv|].
    destruct (proj1 (proj2 (integer_codecs_roundtrip (-32768))) Hv)
      as (bs & Henc & _ & -> & _ & Hdec).
    split; [exact Henc | exact Hdec].
  - assert (- 2 ^ 31 <= 2 ^ 31 - 1 <= 2 ^ 31 - 1) as Hv by lia.
    split; [exact Hv|].
    destruct (proj2 (proj2 (integer_codecs_roundtrip (2 ^ 31 - 1))) Hv)
      as (bs & Henc & _ & -> & _ & Hdec).
    split; [exact Henc | exact Hdec].
Defined.

(** ** Addressing *)

Lemma id_chain_Container (parent : ContainerTraits) (slot : Z) :
  id_chain (Container parent slot) = id_chain parent ++ [slot].
Proof. destruct parent; reflexivity. Qed.

Lemma id_chain_for_app (c : ContainerTraits) (slot : Z) :
  id_chain_for c slot = id_chain c ++ [slot].
Proof. destruct c; reflexivity. Qed.

Lemma id_chain_foldl (chain : list Z) (c : ContainerTraits) :
  id_chain (foldl (fun c x => Container c x) c chain) = id_chain c ++ chain.
Proof.
  revert c. induction chain as [|x chain IH]; intros c; simpl.
  - by rewrite app_nil_r.
  - rewrite IH, id_chain_Container, <- app_assoc. reflexivity.
Qed.

(** C7: the id-chain of a root container is empty; a root gives [(slot,)]
    for a slot; the id-chain of a nested container, and of any object placed
    in a container, is the parent's id-chain with the slot appended; and the
    chain of containers rebuilt by [container_for] has the id-chain it was
    rebuilt from.  [container_for] is a function of the chain alone: no
    world is threaded through it, so it reaches neither the device nor the
    trace. *)
Theorem addressing_roundtrip :
  id_chain RootContainer = [] /\
  (forall slot, id_chain_for RootContainer slot = [slot]) /\
  (forall parent slot,
     id_chain (Container parent slot) = id_chain parent ++ [slot]) /\
  (forall parent slot,
     ContainedObject.id_chain (ContainedObject.new parent slot)
     = Ok (id_chain parent ++ [slot])) /\
  (forall chain, id_chain (container_for chain) = chain).
Proof.
  split; [reflexivity|]. split; [reflexivity|].
  split; [apply id_chain_Container|]. split.
  - intros parent slot. unfold ContainedObject.id_chain; simpl.
    by rewrite id_chain_for_app.
  - intros chain. unfold container_for. by rewrite id_chain_foldl.
Qed.

(** ** The type registry *)

Lemma from_id_unknown (n : Z) :
  n ∉ (type_id <$> BuiltInObjectTypes.all_types) ->
  BuiltInObjectTypes.from_id n = None.
Proof.
  intros Hn. unfold BuiltInObjectTypes.from_id, BuiltInObjectTypes._from_id.
  simpl in *. rewrite !not_elem_of_cons in Hn.
  destruct Hn as (? & ? & ? & ? & ? & ? & ? & _).
  rewrite !lookup_insert_ne by lia. apply lookup_empty.
Qed.

(** C10: a type id that is not in the registry makes [from_id] return
    [None] instead of raising; a listed object with such a type id and a
    non-empty definition block is then never turned into an
    [ObjectReference]: decoding has no class to go to and raises
    [AttributeError]. *)
Theorem unknown_type_id_not_materialized (n : Z) (chain : list Z)
    (data : pyval) :
  n ∉ (type_id <$> BuiltInObjectTypes.all_types) ->
  truthy data = true ->
  BuiltInObjectTypes.from_id n = None /\
  (forall r, _materialize_object_descriptor chain n data <> Ok r) /\
  (chain <> [] ->
   _materialize_object_descriptor chain n data = Raise AttributeError).
Proof.
  intros Hn Hdata. pose proof (from_id_unknown n Hn) as Hnone.
  split; [exact Hnone|].
  unfold _materialize_object_descriptor, _container_slot_from_id_chain,
    container_chain_and_id.
  rewrite Hnone, Hdata.
  destruct (last chain) as [s|] eqn:Hlast; simpl.
  - split; [discriminate | reflexivity].
  - split; [discriminate|]. intros Hne.
    apply last_None in Hlast. contradiction.
Qed.

Lemma unknown_type_id_not_materialized_witness :
  (42 ∉ (type_id <$> BuiltInObjectTypes.all_types)) /\
  truthy (PBytes [1]) = true /\
  BuiltInObjectTypes.from_id 42 = None /\
  _materialize_object_descriptor [1; 2] 42 (PBytes [1]) = Raise AttributeError.
Proof.
  assert (42 ∉ (type_id <$> BuiltInObjectTypes.all_types)) as Hn.
  { simpl. rewrite !not_elem_of_cons. repeat split; try discriminate.
    apply not_elem_of_nil. }
  split; [exact Hn|]. split; [reflexivity|].
  destruct (unknown_type_id_not_materialized 42 [1; 2] (PBytes [1]) Hn eq_refl)
    as (Hnone & _ & Hraise).
  split; [exact Hnone | apply Hraise; discriminate].
Defined.

(** ** The definition of PersistChangeValue *)

Lemma little_endian_2 (u : Z) :
  little_endian 2 u = [u mod 256; (u / 256) mod 256].
Proof.
  unfold little_endian. cbn [seq fmap list_fmap].
  change (256 ^ Z.of_nat 0) with 1. rewrite Z.div_1_r. reflexivity.
Qed.

Lemma encode_definition_shorts (value threshold : Z) :
  0 <= threshold ->
  PersistChangeValue.encode_definition (PTuple [value; threshold])
  = (e0 ← ShortEncoder.encode value;
     e1 ← ShortEncoder.encode threshold;
     PersistChangeValue.concat e0 e1).
Proof.
  intros Ht. unfold PersistChangeValue.encode_definition.
  cbn [getitem lookup list_lookup mbind result_bind].
  by replace (threshold <? 0) with false by (symmetry; apply Z.ltb_ge; lia).
Qed.

Lemma encode_definition_block (value threshold : Z) :
  -32768 <= value <= 32767 -> 0 <= threshold <= 32767 ->
  PersistChangeValue.encode_definition (PTuple [value; threshold])
  = Ok (PBytes (little_endian 2 (biased 16 value)
                ++ little_endian 2 threshold)).
Proof.
  intros Hv Ht. rewrite encode_definition_shorts by lia.
  rewrite !short_encode_bytes by lia. cbn [mbind result_bind].
  unfold PersistChangeValue.concat. do 4 f_equal.
  unfold biased. by replace (threshold <? 0) with false
    by (symmetry; apply Z.ltb_ge; lia).
Qed.

Lemma decode_definition_block (value threshold : Z) :
  -32768 <= value <= 32767 -> 0 <= threshold <= 32767 ->
  PersistChangeValue.decode_definition
    (PBytes (little_endian 2 (biased 16 value) ++ little_endian 2 threshold))
  = Ok (PTuple [value; threshold]).
Proof.
  intros Hv Ht.
  assert (threshold = biased 16 threshold) as Hb.
  { unfold biased. by replace (threshold <? 0) with false
      by (symmetry; apply Z.ltb_ge; lia). }
  unfold PersistChangeValue.decode_definition, slice.
  cbn [mbind result_bind].
  replace (take (2 - 0) (drop 0 (little_endian 2 (biased 16 value)
                                 ++ little_endian 2 threshold)))
    with (little_endian 2 (biased 16 value))
    by (by rewrite !little_endian_2).
  replace (take (4 - 2) (drop 2 (little_endian 2 (biased 16 value)
                                 ++ little_endian 2 threshold)))
    with (little_endian 2 (biased 16 threshold))
    by (by rewrite <- Hb, !little_endian_2).
  rewrite !short_decode_bytes by lia. reflexivity.
Qed.

Lemma encode_definition_negative_threshold (value threshold : Z) :
  threshold < 0 ->
  PersistChangeValue.encode_definition (PTuple [value; threshold])
  = Raise ValueError.
Proof.
  intros Ht. unfold PersistChangeValue.encode_definition.
  cbn [getitem lookup list_lookup mbind result_bind].
  by replace (threshold <? 0) with true by (symmetry; apply Z.ltb_lt; lia).
Qed.

(** ** The controller *)

Section ControllerProperties.
Context {D : Type} `{Protocol D}.

Lemma bind_ok {A B} (m : M D A) (f : A -> M D B) (w w' : world D) (a : A) :
  m w = (Ok a, w') -> (m ≫= f) w = f a w'.
Proof. intros Hm. unfold mbind, M_bind. by rewrite Hm. Qed.

Lemma bind_raise {A B} (m : M D A) (f : A -> M D B) (w w' : world D)
    (e : exn) :
  m w = (Raise e, w') -> (m ≫= f) w = (Raise e, w').
Proof. intros Hm. unfold mbind, M_bind. by rewrite Hm. Qed.

Lemma send_eq (fn : p.command) (w : world D) :
  send fn w = (Ok (respond (device w) fn).2, sent fn w).
Proof. unfold send, sent. by destruct (respond (device w) fn). Qed.

Lemma _handle_error_eq (fn : p.command) (allow_fail : bool) (w : world D) :
  _handle_error fn allow_fail w =
  (match answer fn w with
   | PInt e =>
       if (e <? 0) && negb allow_fail then Raise FailedOperationError
       else Ok e
   | PNone | PBytes _ | PTuple _ => Raise TypeError
   end, sent fn w).
Proof.
  unfold _handle_error. rewrite (bind_ok _ _ _ _ _ (send_eq fn w)).
  fold (answer fn w).
  destruct (answer fn w) as [|e| |]; try reflexivity.
  by destruct ((e <? 0) && negb allow_fail).
Qed.

Lemma _fetch_data_block_eq (fn : p.command) (w : world D) :
  _fetch_data_block fn w =
  (if truthy (answer fn w) then Ok (answer fn w)
   else Raise FailedOperationError, sent fn w).
Proof.
  unfold _fetch_data_block. rewrite (bind_ok _ _ _ _ _ (send_eq fn w)).
  fold (answer fn w). by destruct (truthy (answer fn w)).
Qed.

(** C4: [write_value] encodes the value and sends the encoded bytes to the
    object's id-chain; whenever what the device echoes differs from what
    was sent, whatever it is, the call raises [FailedOperationError]; only
    the one write has been sent and the store of proxies is as before. *)
Theorem write_value_echo_mismatch {V} (obj : ValueObject V) (value : V)
    (encoded : pyval) (chain : list Z) (w : world D) :
  encode obj value = Ok encoded ->
  ContainedObject.id_chain (proxy obj) = Ok chain ->
  answer (p.write_value chain encoded) w <> encoded ->
  write_value obj value w
  = (Raise FailedOperationError, sent (p.write_value chain encoded) w) /\
  trace (write_value obj value w).2
  = trace w ++ [Sent (p.write_value chain encoded)] /\
  objects (write_value obj value w).2 = objects w.
Proof.
  intros Henc Hchain Hecho.
  assert (write_value obj value w
          = (Raise FailedOperationError,
             sent (p.write_value chain encoded) w)) as Heq.
  { unfold write_value, _write_value. rewrite Henc, Hchain.
    unfold lift at 1. unfold mbind at 1, M_bind at 1.
    unfold lift at 1. unfold mbind at 1, M_bind at 1.
    unfold mbind, M_bind. rewrite _fetch_data_block_eq.
    destruct (truthy _); [|reflexivity].
    by destruct (decide _). }
  rewrite Heq. by repeat split.
Qed.

(** *** The system id *)

Lemma read_system_id_eq (w : world D) :
  ReadWriteSystemObject_read system_id w =
  (if truthy (answer (p.read_system_value [0] 1) w)
   then Ok (answer (p.read_system_value [0] 1) w)
   else Raise FailedOperationError,
   sent (p.read_system_value [0] 1) w).
Proof.
  unfold ReadWriteSystemObject_read, read_system_value; simpl.
  unfold mbind, M_bind, lift; simpl.
  rewrite _fetch_data_block_eq. by destruct (truthy _).
Qed.

Lemma write_system_id_eq (value : pyval) (w : world D) :
  ReadWriteSystemObject_write system_id value w =
  (if truthy (answer (p.write_system_value [0] value) w) then
     if decide (answer (p.write_system_value [0] value) w = value)
     then Ok tt else Raise FailedOperationError
   else Raise FailedOperationError,
   sent (p.write_system_value [0] value) w).
Proof.
  unfold ReadWriteSystemObject_write, write_system_value, _write_value;
    simpl.
  unfold mbind, M_bind, lift; simpl.
  rewrite _fetch_data_block_eq. destruct (truthy _); [|reflexivity].
  by destruct (decide _), (decide _).
Qed.

(** C3, as the code has it: [initialize] reads the stored system id; it
    asks [fetch_id] for a fresh id exactly when the first byte read is
    [0xFF]; in both cases it then writes the effective id to the device,
    and it returns the effective id when the device echoes it. *)
Theorem initialize_effective_id (fetch_id : M D pyval) (w : world D)
    (stored : pyval) (first : Z) :
  answer (p.read_system_value [0] 1) w = stored ->
  truthy stored = true ->
  getitem stored 0 = Ok first ->
  let w1 := sent (p.read_system_value [0] 1) w in
  (first <> 255 ->
   initialize fetch_id w =
   (if decide (answer (p.write_system_value [0] stored) w1 = stored)
    then Ok stored else Raise FailedOperationError,
    sent (p.write_system_value [0] stored) w1)) /\
  (first = 255 ->
   forall fresh w2, fetch_id w1 = (Ok fresh, w2) ->
   initialize fetch_id w =
   (if decide (answer (p.write_system_value [0] fresh) w2 = fresh /\
               truthy fresh = true)
    then Ok fresh else Raise FailedOperationError,
    sent (p.write_system_value [0] fresh) w2)).
Proof.
  intros Hread Htruthy Hfirst w1.
  assert (ReadWriteSystemObject_read system_id w = (Ok stored, w1)) as Hr.
  { rewrite read_system_id_eq, Hread, Htruthy. reflexivity. }
  split.
  - intros Hne. unfold initialize.
    rewrite (bind_ok _ _ _ _ _ Hr).
    unfold mbind at 1, M_bind at 1, lift at 1. rewrite Hfirst.
    replace (first =? 255) with false by (symmetry; apply Z.eqb_neq; lia).
    unfold mbind, M_bind, mret, M_ret. rewrite write_system_id_eq.
    destruct (decide (_ = stored)) as [->|]; [by rewrite Htruthy|].
    by destruct (truthy (answer _ w1)).
  - intros -> fresh w2 Hfetch. unfold initialize.
    rewrite (bind_ok _ _ _ _ _ Hr).
    unfold mbind at 1, M_bind at 1, lift at 1. rewrite Hfirst.
    change (255 =? 255) with true. cbv iota.
    rewrite (bind_ok _ _ _ _ _ Hfetch).
    unfold mbind, M_bind, mret, M_ret. rewrite write_system_id_eq.
    destruct (decide (_ /\ _)) as [[-> ->]|Hno].
    + by rewrite decide_True.
    + destruct (truthy (answer _ w2)) eqn:Ht; [|reflexivity].
      destruct (decide (_ = fresh)) as [Heq|]; [|reflexivity].
      exfalso. apply Hno. split; [exact Heq | by rewrite <- Heq].
Qed.

(** *** Reset *)

(** C1, as the code has it: the flag argument of the reset call is [1]
    whenever [erase_eeprom] is set, whatever [hard_reset] is, and otherwise
    [2] or [0] with [hard_reset]; an erasing reset first reads the system
    id and hands it back to the id service. *)
Theorem reset_flag_sent (hard_reset : bool) (w : world D) :
  trace (reset false hard_reset w).2
  = trace w ++ [Sent (p.reset (if hard_reset then 2 else 0))] /\
  (truthy (answer (p.read_system_value [0] 1) w) = true ->
   trace (reset true hard_reset w).2
   = trace w ++ [Sent (p.read_system_value [0] 1);
                 ReturnId (answer (p.read_system_value [0] 1) w);
                 Sent (p.reset 1)]).
Proof.
  split.
  - unfold reset. unfold mbind, M_bind, mret, M_ret.
    rewrite _handle_error_eq.
    destruct (match answer _ w with PInt _ => _ | _ => _ end);
      by destruct hard_reset.
  - intros Ht. unfold reset. unfold mbind, M_bind, mret, M_ret.
    rewrite read_system_id_eq, Ht.
    unfold id_service.return_id, log. rewrite _handle_error_eq.
    destruct (match answer _ _ with PInt _ => _ | _ => _ end);
      simpl; by rewrite <- !app_assoc.
Qed.

(** *** Creating objects *)

Lemma _delete_object_at_optional_eq (chain : list Z) (w : world D) :
  _delete_object_at chain true w =
  (match answer (p.delete_object chain) w with
   | PInt _ => Ok tt
   | PNone | PBytes _ | PTuple _ => Raise TypeError
   end, sent (p.delete_object chain) w).
Proof.
  unfold _delete_object_at, mbind, M_bind. rewrite _handle_error_eq.
  destruct (answer _ w) as [|e| |]; try reflexivity.
  by rewrite andb_false_r.
Qed.

(** Once the first call is through, a failing definition check ends
    [create_object] on the spot. *)
Lemma check_fails_tail (obj_class : object_type) (args : pyval) (e : exn)
    (k : pyval -> M D nat) (w : world D) :
  definition_check obj_class args = Raise e ->
  (data ← lift (if decide (args = PNone) then Ok PNone
                else
                  e ← encode_definition obj_class args;
                  Ok (if truthy e then e else PNone));
   dec ← lift (if truthy args then decode_definition obj_class data
               else Ok args);
   if decide (dec ≠ args) then raise (mismatch_error args)
   else k data) w = (Raise e, w).
Proof.
  unfold definition_check, mbind, M_bind, lift, raise.
  destruct (if decide (args = PNone) then _ else _) as [data|e1];
    cbn [result_bind]; [|congruence].
  destruct (if truthy args then _ else _) as [dec|e2];
    cbn [result_bind]; [|congruence].
  destruct (decide (dec ≠ args)); congruence.
Qed.

Lemma create_object_check_fails (obj_class : object_type) (args : pyval)
    (container : option ContainerTraits) (slot : option Z) (w : world D)
    (e : exn) :
  definition_check obj_class args = Raise e ->
  create_object obj_class args container slot w
  = (Raise (default e (first_call_error slot
                         (answer (first_call container slot) w))),
     sent (first_call container slot) w).
Proof.
  intros Hcheck. unfold create_object, first_call, root_container, _root.
  set (c := default RootContainer container).
  destruct slot as [s|].
  - pose proof (_delete_object_at_optional_eq (id_chain_for c s) w) as Hdel.
    destruct (answer (p.delete_object (id_chain_for c s)) w) as [|m| |];
      try (by rewrite (bind_raise _ _ _ _ _ Hdel)).
    rewrite (bind_ok _ _ _ _ _ Hdel). cbv beta.
    unfold mbind at 1, M_bind at 1, mret at 1, M_ret at 1.
    by rewrite (check_fails_tail _ _ _ _ _ Hcheck).
  - pose proof (_handle_error_eq (p.next_slot (id_chain c)) false w) as Hnext.
    fold (next_slot c) in Hnext.
    unfold mbind at 1, M_bind at 1, mret at 1, M_ret at 1.
    destruct (answer (p.next_slot (id_chain c)) w) as [|m| |];
      try (by rewrite (bind_raise _ _ _ _ _ Hnext)).
    simpl in *. destruct (m <? 0); simpl in Hnext.
    + by rewrite (bind_raise _ _ _ _ _ Hnext).
    + rewrite (bind_ok _ _ _ _ _ Hnext). cbv beta.
      by rewrite (check_fails_tail _ _ _ _ _ Hcheck).
Qed.

(** C2, as the code has it: [create_object] first issues one device call,
    the tolerant delete at the given slot or the query for the next slot,
    and only then encodes the arguments and checks the round trip; when
    the check fails the call raises with that single device call sent and
    no create command, and the exception is the one of the check whenever
    the first call went through. *)
Theorem create_object_check_after_first_call (obj_class : object_type)
    (args : pyval) (container : option ContainerTraits) (slot : option Z)
    (w : world D) (e : exn) :
  definition_check obj_class args = Raise e ->
  create_object obj_class args container slot w
  = (Raise (default e (first_call_error slot
                         (answer (first_call container slot) w))),
     sent (first_call container slot) w) /\
  device_calls (trace (create_object obj_class args container slot w).2)
  = device_calls (trace w) ++ [Sent (first_call container slot)].
Proof.
  intros Hcheck.
  rewrite (create_object_check_fails _ _ _ _ _ _ Hcheck).
  split; [reflexivity|]. simpl. unfold device_calls.
  by rewrite filter_app.
Qed.

(** C8, as the code has it: for the arguments [(value, threshold)] of a
    PersistChangeValue with a threshold that is not negative,
    [encode_definition] gives the Short encoding of the value followed by
    the Short encoding of the threshold, four bytes for two Shorts, and
    [[100; 0; 5; 0]] for [(100, 5)]; [decode_definition] of that block
    gives the pair back; a negative threshold makes [encode_definition]
    raise [ValueError], and [create_object] then raises before any create
    command, but after its first device call, the delete at the slot or
    the query for the next slot. *)
Theorem persist_change_value_definition (value threshold : Z) :
  PersistChangeValue.encode_definition (PTuple [100; 5])
  = Ok (PBytes [100; 0; 5; 0]) /\
  (0 <= threshold ->
   PersistChangeValue.encode_definition (PTuple [value; threshold])
   = (e0 ← ShortEncoder.encode value;
      e1 ← ShortEncoder.encode threshold;
      PersistChangeValue.concat e0 e1)) /\
  (-32768 <= value <= 32767 -> 0 <= threshold <= 32767 ->
   exists block,
     PersistChangeValue.encode_definition (PTuple [value; threshold])
     = Ok (PBytes block) /\
     block = little_endian 2 (biased 16 value) ++ little_endian 2 threshold /\
     length block = 4%nat /\
     PersistChangeValue.decode_definition (PBytes block)
     = Ok (PTuple [value; threshold])) /\
  (threshold < 0 ->
   PersistChangeValue.encode_definition (PTuple [value; threshold])
   = Raise ValueError /\
   forall container slot (w : world D),
     create_object PersistChangeValue (PTuple [value; threshold])
       container slot w
     = (Raise (default ValueError
                 (first_call_error slot
                    (answer (first_call container slot) w))),
        sent (first_call container slot) w)).
Proof.
  split; [reflexivity|]. split; [apply encode_definition_shorts|]. split.
  - intros Hv Ht. eexists. split; [by apply encode_definition_block|].
    split; [reflexivity|]. split; [by rewrite !little_endian_2|].
    by apply decode_definition_block.
  - intros Ht.
    pose proof (encode_definition_negative_threshold value _ Ht) as Henc.
    split; [exact Henc|]. intros container slot w.
    apply create_object_check_fails.
    unfold definition_check. rewrite decide_False by discriminate.
    cbn [encode_definition]. by rewrite Henc.
Qed.

(** *** Deleting a proxy *)

Lemma delete_object_eq (o : ContainedObject) (chain : list Z)
    (w : world D) :
  ContainedObject.id_chain o = Ok chain ->
  delete_object o w =
  (match answer (p.delete_object chain) w with
   | PInt e => if e <? 0 then Raise FailedOperationError else Ok tt
   | PNone | PBytes _ | PTuple _ => Raise TypeError
   end, sent (p.delete_object chain) w).
Proof.
  intros Hchain. unfold delete_object, _delete_object_at. rewrite Hchain.
  unfold mbind, M_bind, lift. rewrite _handle_error_eq.
  destruct (answer _ w) as [|e| |]; try reflexivity.
  rewrite andb_true_r. by destruct (e <? 0).
Qed.

(** C9, as the code has it: on a live proxy, [delete] sends exactly one
    device delete for the proxy's id-chain.  When the device accepts it,
    the proxy's container, slot and controller are cleared, and every
    later [delete] on the proxy sends nothing and changes nothing.  When
    the device answers with a negative code, [delete] raises
    [FailedOperationError] and the proxy is left as it was. *)
Theorem delete_detaches_once (self : nat) (o : ContainedObject)
    (chain : list Z) (w : world D) :
  objects w !! self = Some o ->
  controller o = Some BaseController ->
  ContainedObject.id_chain o = Ok chain ->
  (forall n, answer (p.delete_object chain) w = PInt n -> 0 <= n ->
     let w1 := World (device (sent (p.delete_object chain) w))
                 (trace w ++ [Sent (p.delete_object chain)])
                 (<[self:=detached]> (objects w)) in
     InstantiableObject_delete self w = (Ok tt, w1) /\
     InstantiableObject_delete self w1 = (Ok tt, w1)) /\
  (forall n, answer (p.delete_object chain) w = PInt n -> n < 0 ->
     InstantiableObject_delete self w
     = (Raise FailedOperationError, sent (p.delete_object chain) w) /\
     objects (sent (p.delete_object chain) w) !! self = Some o).
Proof.
  intros Hself Hctl Hchain.
  pose proof (delete_object_eq o chain w Hchain) as Hdel.
  assert (deref self w = (Ok o, w)) as Hderef
    by (unfold deref; by rewrite Hself).
  split.
  - intros n Hn Hpos w1. rewrite Hn in Hdel.
    replace (n <? 0) with false in Hdel by (symmetry; apply Z.ltb_ge; lia).
    split.
    + unfold InstantiableObject_delete.
      rewrite (bind_ok _ _ _ _ _ Hderef). cbv beta. rewrite Hctl.
      rewrite (bind_ok _ _ _ _ _ Hdel). cbv beta.
      unfold mbind, M_bind, assign, sent, w1; simpl.
      by rewrite !list_insert_insert_eq.
    + unfold InstantiableObject_delete, mbind, M_bind, deref, w1; simpl.
      rewrite list_lookup_insert_eq by (by eapply lookup_lt_Some).
      reflexivity.
  - intros n Hn Hneg. rewrite Hn in Hdel.
    replace (n <? 0) with true in Hdel by (symmetry; apply Z.ltb_lt; lia).
    split; [|exact Hself].
    unfold InstantiableObject_delete.
    rewrite (bind_ok _ _ _ _ _ Hderef). cbv beta. rewrite Hctl.
    by rewrite (bind_raise _ _ _ _ _ Hdel).
Qed.
End ControllerProperties.

(** ** The properties at work on the scripted device *)

Lemma write_value_echo_mismatch_witness :
  let obj := PersistChangeValue_obj (ContainedObject.new RootContainer 2) in
  let w := World (replies [PBytes [1; 0]]) [] [] in
  encode obj 100 = Ok (PBytes [100; 0]) /\
  ContainedObject.id_chain (proxy obj) = Ok [2] /\
  answer (p.write_value [2] (PBytes [100; 0])) w <> PBytes [100; 0] /\
  write_value obj 100 w
  = (Raise FailedOperationError,
     World [] [Sent (p.write_value [2] (PBytes [100; 0]))] []).
Proof.
  intros obj w.
  assert (answer (p.write_value [2] (PBytes [100; 0])) w <> PBytes [100; 0])
    as Hecho by discriminate.
  split; [reflexivity|]. split; [reflexivity|]. split; [exact Hecho|].
  assert (encode obj 100 = Ok (PBytes [100; 0])) as Henc by reflexivity.
  assert (ContainedObject.id_chain (proxy obj) = Ok [2]) as Hchain
    by reflexivity.
  apply (write_value_echo_mismatch obj 100 (PBytes [100; 0]) [2] w
           Henc Hchain Hecho).
Defined.

Lemma initialize_effective_id_witness :
  let read := p.read_system_value [0] 1 in
  let blank := World (replies [PBytes [255]; PBytes [42]]) [] [] in
  let named := World (replies [PBytes [7]; PBytes [7]]) [] [] in
  (answer read blank = PBytes [255] /\
   truthy (PBytes [255]) = true /\
   getitem (PBytes [255]) 0 = Ok 255 /\
   acquire_42 (sent read blank)
   = (Ok (PBytes [42]), World (replies [PBytes [42]]) [Sent read; AcquireId] []) /\
   initialize acquire_42 blank
   = (Ok (PBytes [42]),
      World [] [Sent read; AcquireId;
                Sent (p.write_system_value [0] (PBytes [42]))] [])) /\
  (answer read named = PBytes [7] /\
   truthy (PBytes [7]) = true /\
   getitem (PBytes [7]) 0 = Ok 7 /\
   7 <> 255 /\
   initialize acquire_42 named
   = (Ok (PBytes [7]),
      World [] [Sent read; Sent (p.write_system_value [0] (PBytes [7]))] [])).
Proof.
  intros read blank named. split.
  - assert (answer read blank = PBytes [255]) as Hread by reflexivity.
    assert (acquire_42 (sent read blank)
            = (Ok (PBytes [42]),
               World (replies [PBytes [42]]) [Sent read; AcquireId] []))
      as Hfetch by reflexivity.
    split; [exact Hread|]. split; [reflexivity|]. split; [reflexivity|].
    split; [exact Hfetch|].
    rewrite (proj2 (initialize_effective_id acquire_42 blank (PBytes [255]) 255
                      Hread eq_refl eq_refl) eq_refl _ _ Hfetch).
    reflexivity.
  - assert (answer read named = PBytes [7]) as Hread by reflexivity.
    assert (7 <> 255) as Hne by lia.
    split; [exact Hread|]. split; [reflexivity|]. split; [reflexivity|].
    split; [exact Hne|].
    rewrite (proj1 (initialize_effective_id acquire_42 named (PBytes [7]) 7
                      Hread eq_refl eq_refl) Hne).
    reflexivity.
Defined.

(** C3, as stated, fails: the stored id [7] is not the sentinel, and
    [initialize] still writes it back to the device. *)
Lemma initialize_writes_back_stored_id :
  let w := World (replies [PBytes [7]; PBytes [7]]) [] [] in
  getitem (PBytes [7]) 0 = Ok 7 /\
  7 <> 255 /\
  initialize acquire_42 w
  = (Ok (PBytes [7]),
     World [] [Sent (p.read_system_value [0] 1);
               Sent (p.write_system_value [0] (PBytes [7]))] []) /\
  ~ (forall chain value,
       Sent (p.write_system_value chain value)
       ∉ trace (initialize acquire_42 w).2).
Proof.
  intros w. split; [reflexivity|]. split; [lia|]. split; [reflexivity|].
  intros Hno. apply (Hno [0] (PBytes [7])).
  apply list_elem_of_In. simpl. auto.
Qed.

Lemma reset_flag_sent_witness :
  let w := World (replies [PBytes [7]; PInt 0]) [] [] in
  truthy (answer (p.read_system_value [0] 1) w) = true /\
  trace (reset true true w).2
  = [Sent (p.read_system_value [0] 1); ReturnId (PBytes [7]);
     Sent (p.reset 1)] /\
  trace (reset false true w).2 = [Sent (p.reset 2)].
Proof.
  intros w.
  assert (truthy (answer (p.read_system_value [0] 1) w) = true) as Hread
    by reflexivity.
  split; [exact Hread|]. split.
  - apply (proj2 (reset_flag_sent true w) Hread).
  - apply (proj1 (reset_flag_sent true w)).
Defined.

Lemma create_object_check_after_first_call_witness :
  let args := PTuple [40000; 5] in
  let w := World (replies [PInt 3]) [] [] in
  definition_check PersistChangeValue args = Raise TypeError /\
  create_object PersistChangeValue args None None w
  = (Raise TypeError, World [] [Sent (p.next_slot [])] []) /\
  device_calls (trace (create_object PersistChangeValue args None None w).2)
  = [Sent (p.next_slot [])].
Proof.
  intros args w.
  assert (definition_check PersistChangeValue args = Raise TypeError)
    as Hcheck by reflexivity.
  split; [exact Hcheck|].
  exact (create_object_check_after_first_call PersistChangeValue args
           None None w TypeError Hcheck).
Defined.

(** C2, as stated, fails: the arguments [(40000, 5)] do not survive the
    round trip, and by the time the check finds out, [create_object] has
    already asked the device for the next slot. *)
Lemma create_object_queries_slot_before_check :
  let args := PTuple [40000; 5] in
  let w := World (replies [PInt 3]) [] [] in
  args <> PNone /\
  encode_definition PersistChangeValue args = Ok (PBytes [64; 156; 5; 0]) /\
  decode_definition PersistChangeValue (PBytes [64; 156; 5; 0])
  = Ok (PTuple [-25536; 5]) /\
  create_object PersistChangeValue args None None w
  = (Raise TypeError, World [] [Sent (p.next_slot [])] []) /\
  device_calls (trace (create_object PersistChangeValue args None None w).2)
  <> [].
Proof.
  intros args w. split; [discriminate|]. split; [reflexivity|].
  split; [reflexivity|]. split; [reflexivity|]. discriminate.
Qed.

Lemma persist_change_value_definition_witness :
  let w := World (replies [PInt 3]) [] [] in
  (0 <= 5 /\ -32768 <= 100 <= 32767 /\ 0 <= 5 <= 32767 /\
   PersistChangeValue.encode_definition (PTuple [100; 5])
   = Ok (PBytes [100; 0; 5; 0]) /\
   PersistChangeValue.decode_definition (PBytes [100; 0; 5; 0])
   = Ok (PTuple [100; 5])) /\
  (-1 < 0 /\
   PersistChangeValue.encode_definition (PTuple [100; -1]) = Raise ValueError /\
   create_object PersistChangeValue (PTuple [100; -1]) None None w
   = (Raise ValueError, World [] [Sent (p.next_slot [])] [])).
Proof.
  intros w. split.
  - assert (0 <= 5) as H5 by lia.
    assert (-32768 <= 100 <= 32767) as Hv by lia.
    assert (0 <= 5 <= 32767) as Ht by lia.
    split; [exact H5|]. split; [exact Hv|]. split; [exact Ht|].
    destruct (persist_change_value_definition (D:=list (option FutureResponse))
                100 5) as (Hex & _ & Hblock & _).
    split; [exact Hex|].
    destruct (Hblock Hv Ht) as (block & Henc & -> & _ & Hdec).
    exact Hdec.
  - assert (-1 < 0) as Hneg by lia. split; [exact Hneg|].
    destruct (persist_change_value_definition (D:=list (option FutureResponse))
                100 (-1)) as (_ & _ & _ & Hbad).
    destruct (Hbad Hneg) as (Henc & Hcreate).
    split; [exact Henc|]. exact (Hcreate None None w).
Defined.

(** C8, as stated, fails on its last part: with the threshold [-1] the
    validation failure is raised, but [create_object] has by then already
    asked the device for the next slot. *)
Lemma negative_threshold_rejected_after_slot_query :
  let w := World (replies [PInt 3]) [] [] in
  create_object PersistChangeValue (PTuple [100; -1]) None None w
  = (Raise ValueError, World [] [Sent (p.next_slot [])] []) /\
  device_calls
    (trace (create_object PersistChangeValue (PTuple [100; -1]) None None w).2)
  <> [].
Proof. intros w. split; [reflexivity | discriminate]. Qed.

Lemma delete_detaches_once_witness :
  let o := ContainedObject.new RootContainer 2 in
  let accepting := World (replies [PInt 0]) [] [o] in
  let refusing := World (replies [PInt (-1)]) [] [o] in
  let gone := World [] [Sent (p.delete_object [2])] [detached] in
  (objects accepting !! 0%nat = Some o /\
   controller o = Some BaseController /\
   ContainedObject.id_chain o = Ok [2] /\
   answer (p.delete_object [2]) accepting = PInt 0 /\
   InstantiableObject_delete 0 accepting = (Ok tt, gone) /\
   InstantiableObject_delete 0 gone = (Ok tt, gone)) /\
  (answer (p.delete_object [2]) refusing = PInt (-1) /\ -1 < 0 /\
   InstantiableObject_delete 0 refusing
   = (Raise FailedOperationError, World [] [Sent (p.delete_object [2])] [o])).
Proof.
  intros o accepting refusing gone.
  assert (ContainedObject.id_chain o = Ok [2]) as Hchain by reflexivity.
  split.
  - assert (objects accepting !! 0%nat = Some o) as Hself by reflexivity.
    assert (answer (p.delete_object [2]) accepting = PInt 0) as Hans
      by reflexivity.
    split; [exact Hself|]. split; [reflexivity|]. split; [exact Hchain|].
    split; [exact Hans|].
    exact (proj1 (delete_detaches_once 0 o [2] accepting Hself eq_refl Hchain)
             0 Hans ltac:(lia)).
  - assert (objects refusing !! 0%nat = Some o) as Hself by reflexivity.
    assert (answer (p.delete_object [2]) refusing = PInt (-1)) as Hans
      by reflexivity.
    assert (-1 < 0) as Hneg by lia.
    split; [exact Hans|]. split; [exact Hneg|].
    exact (proj1 (proj2 (delete_detaches_once 0 o [2] refusing Hself eq_refl
                           Hchain) (-1) Hans Hneg)).
Defined.

(** C9, as stated, fails: when the device refuses the delete, the first
    [delete] raises and leaves the proxy attached, and the next [delete] on
    the same proxy sends a second device delete. *)
Lemma delete_refused_is_sent_again :
  let o := ContainedObject.new RootContainer 2 in
  let w := World (replies [PInt (-1); PInt 0]) [] [o] in
  let w1 := World (replies [PInt 0]) [Sent (p.delete_object [2])] [o] in
  InstantiableObject_delete 0 w = (Raise FailedOperationError, w1) /\
  objects w1 !! 0%nat <> Some detached /\
  trace (InstantiableObject_delete 0 w1).2
  = [Sent (p.delete_object [2]); Sent (p.delete_object [2])] /\
  device_calls (trace (InstantiableObject_delete 0 w1).2)
  <> device_calls (trace w1).
Proof.
  intros o w w1. split; [reflexivity|]. split; [discriminate|].
  split; [reflexivity | discriminate].
Qed.

(** * Further properties *)

(** ** The encoders outside the representable range *)

Lemma setitem_inv (buf buf' : list Z) (i : nat) (x : Z) :
  setitem buf i x = Ok buf' ->
  buf' = <[i:=x]> buf /\ 0 <= x < 256 /\ (i < length buf)%nat.
Proof.
  unfold setitem. destruct (decide (i < length buf)%nat); [|discriminate].
  destruct (Z.leb_spec 0 x); [|discriminate].
  destruct (Z.ltb_spec x 256); [|discriminate].
  simpl. intros [= <-]. repeat split; lia.
Qed.

Lemma signed_byte_range (b : Z) :
  0 <= b < 256 -> -128 <= signed_byte b <= 127.
Proof. intros Hb. unfold signed_byte. destruct (Z.ltb_spec b 128); lia. Qed.

Lemma wrap_representable (width v : Z) :
  0 < width -> - 2 ^ (width - 1) <= v < 2 ^ (width - 1) -> wrap width v = v.
Proof.
  intros Hw Hv. unfold wrap.
  assert (2 ^ width = 2 * 2 ^ (width - 1)) as Hpow.
  { rewrite <- Z.pow_succ_r by lia. f_equal. lia. }
  rewrite Z.mod_small by lia. lia.
Qed.

Lemma wrap_range (width u : Z) :
  0 < width -> - 2 ^ (width - 1) <= wrap width u < 2 ^ (width - 1).
Proof.
  intros Hw. unfold wrap.
  assert (2 ^ width = 2 * 2 ^ (width - 1)) as Hpow.
  { rewrite <- Z.pow_succ_r by lia. f_equal. lia. }
  assert (0 < 2 ^ (width - 1)) by (apply Z.pow_pos_nonneg; lia).
  pose proof (Z.mod_pos_bound (u + 2 ^ (width - 1)) (2 ^ width) ltac:(lia)).
  lia.
Qed.

Lemma setitem_not_byte (buf : list Z) (i : nat) (x : Z) :
  (i < length buf)%nat -> ~ (0 <= x < 256) ->
  setitem buf i x = Raise ValueError.
Proof.
  intros Hi Hx. unfold setitem.
  destruct (decide (i < length buf)%nat) as [_|]; [|lia].
  destruct (Z.leb_spec 0 x); [|reflexivity].
  destruct (Z.ltb_spec x 256); [lia | reflexivity].
Qed.

(** What [ShortEncoder.encode] does on any int. *)
Lemma short_encode_eq (v : Z) :
  ShortEncoder.encode v =
  let u := if v <? 0 then v + 64 * 1024 else v in
  let hi := unsigned_byte (int_truediv u 256) in
  if (0 <=? hi) && (hi <? 256) then Ok (PBytes [u mod 256; hi])
  else Raise ValueError.
Proof.
  unfold ShortEncoder.encode, ValueEncoder.encode, ShortEncoder._encode.
  change (bytearray ShortEncoder.encoded_len) with [0; 0].
  cbv zeta. set (u := if v <? 0 then v + 64 * 1024 else v).
  set (hi := unsigned_byte (int_truediv u 256)).
  destruct (Z.leb_spec 0 hi); [destruct (Z.ltb_spec hi 256)|]; simpl.
  - rewrite (setitem_ok [0; 0] 1 hi) by (simpl; lia).
    cbn [mbind result_bind].
    rewrite setitem_ok by (simpl; auto using Z.mod_pos_bound with lia).
    reflexivity.
  - by rewrite (setitem_not_byte [0; 0] 1 hi) by (simpl; lia).
  - by rewrite (setitem_not_byte [0; 0] 1 hi) by (simpl; lia).
Qed.

Lemma short_decode_pair (b0 b1 : Z) :
  ShortDecoder.decode (PBytes [b0; b1]) = Ok (signed_byte b1 * 256 + b0).
Proof. reflexivity. Qed.






(** X2: encoding as a Short and decoding again gives the value back exactly
    when the value is a Short, that is from [-32768] to [32767]. *)
Theorem short_roundtrip_iff_representable (v : Z) :
  (exists bs, ShortEncoder.encode v = Ok bs /\ ShortDecoder.decode bs = Ok v)
  <-> -32768 <= v <= 32767.
Proof.
  split.
  - intros (bs & Henc & Hdec). rewrite short_encode_eq in Henc. cbv zeta in Henc.
    set (u := if v <? 0 then v + 64 * 1024 else v) in *.
    set (hi := unsigned_byte (int_truediv u 256)) in *.
    destruct (Z.leb_spec 0 hi); [|discriminate].
    destruct (Z.ltb_spec hi 256); [|discriminate].
    simpl in Henc. injection Henc as <-.
    rewrite short_decode_pair in Hdec. injection Hdec as Hv.
    pose proof (signed_byte_range hi ltac:(lia)).
    pose proof (Z.mod_pos_bound u 256 ltac:(lia)). lia.
  - intros Hv. eexists. split; [by apply short_encode_bytes|].
    by apply short_decode_bytes.
Qed.

(** What [LongEncoder.encode] does on any int: it never refuses. *)
Lemma long_encode_eq (v : Z) :
  LongEncoder.encode v =
  let u := if v <? 0 then v + Z.shiftl 1 32 else v in
  let q1 := int_truediv u 256 in
  let q2 := int_truediv q1 256 in
  let q3 := int_truediv q2 256 in
  Ok (PBytes [u mod 256; q1 mod 256; q2 mod 256; q3 mod 256]).
Proof.
  unfold LongEncoder.encode, ValueEncoder.encode, LongEncoder._encode.
  change (bytearray LongEncoder.encoded_len) with [0; 0; 0; 0].
  cbv zeta. cbn [seq LongEncoder._encode_loop].
  rewrite setitem_ok by (simpl; auto using Z.mod_pos_bound with lia).
  cbn [mbind result_bind].
  rewrite setitem_ok by (simpl; auto using Z.mod_pos_bound with lia).
  cbn [mbind result_bind].
  rewrite setitem_ok by (simpl; auto using Z.mod_pos_bound with lia).
  cbn [mbind result_bind].
  rewrite setitem_ok by (simpl; auto using Z.mod_pos_bound with lia).
  reflexivity.
Qed.

Lemma long_decode_quad (b0 b1 b2 b3 : Z) :
  LongDecoder.decode (PBytes [b0; b1; b2; b3])
  = Ok (((signed_byte b3 * 256 + b2) * 256 + b1) * 256 + b0).
Proof. reflexivity. Qed.

Lemma long_encode_wide (v : Z) :
  - 2 ^ 32 <= v ->
  LongEncoder.encode v = Ok (PBytes (little_endian 4 (biased 32 v))) /\
  LongDecoder.decode (PBytes (little_endian 4 (biased 32 v)))
  = Ok (wrap 32 v).
Proof.
  intros Hv. rewrite long_encode_eq, little_endian_4, long_decode_quad.
  cbv zeta. change (Z.shiftl 1 32) with (2 ^ 32). fold (biased 32 v).
  assert (v < 0 /\ biased 32 v = v + 2 ^ 32 \/ 0 <= v /\ biased 32 v = v)
    as Hrel by (unfold biased; destruct (Z.ltb_spec v 0); lia).
  set (u := biased 32 v) in *. clearbody u.
  assert (0 <= u) by lia.
  assert (0 <= u / 256) by (apply Z.div_pos; lia).
  assert (0 <= u / 256 / 256) by (apply Z.div_pos; lia).
  rewrite (int_truediv_nonneg u) by lia.
  rewrite (int_truediv_nonneg (u / 256)) by lia.
  rewrite (int_truediv_nonneg (u / 256 / 256)) by lia.
  split; [reflexivity|]. f_equal.
  unfold wrap. change (2 ^ (32 - 1)) with 2147483648.
  change (2 ^ 32) with 4294967296 in *.
  unfold signed_byte.
  destruct (Z.ltb_spec ((u / 256 / 256 / 256) mod 256) 128);
    Z.to_euclidean_division_equations; lia.
Qed.

(** X3: [LongEncoder] never refuses a value and does not check that it is a
    Long: for a value from [-2^32] on (and below [2^53], where the float
    division of the source is exact) it gives the four little-endian bytes
    of the value, plus [2^32] when it is negative, cut to 32 bits; these
    bytes decode to the value wrapped into the Long range. *)
Theorem long_encoder_truncates (v : Z) :
  - 2 ^ 32 <= v < 2 ^ 53 ->
  LongEncoder.encode v = Ok (PBytes (little_endian 4 (biased 32 v))) /\
  Z.of_nat (length (little_endian 4 (biased 32 v))) = LongEncoder.encoded_len /\
  LongDecoder.decode (PBytes (little_endian 4 (biased 32 v)))
  = Ok (wrap 32 v).
Proof.
  intros [Hlo _]. destruct (long_encode_wide v Hlo) as [Henc Hdec].
  split; [exact Henc|]. split; [reflexivity | exact Hdec].
Qed.

Lemma long_encoder_truncates_witness :
  - 2 ^ 32 <= 2 ^ 32 + 5 < 2 ^ 53 /\
  LongEncoder.encode (2 ^ 32 + 5) = Ok (PBytes [5; 0; 0; 0]) /\
  LongDecoder.decode (PBytes [5; 0; 0; 0]) = Ok 5.
Proof.
  assert (- 2 ^ 32 <= 2 ^ 32 + 5 < 2 ^ 53) as Hv by lia.
  split; [exact Hv|].
  destruct (long_encoder_truncates (2 ^ 32 + 5) Hv) as (Henc & _ & Hdec).
  split; [exact Henc | exact Hdec].
Defined.

(** X4: below [2^53] in absolute value, encoding as a Long and decoding
    again gives the value back exactly when the value is a Long, that is
    from [-2^31] to [2^31 - 1]. *)
Theorem long_roundtrip_iff_representable (v : Z) :
  - 2 ^ 53 < v < 2 ^ 53 ->
  ((exists bs, LongEncoder.encode v = Ok bs /\ LongDecoder.decode bs = Ok v)
   <-> - 2 ^ 31 <= v <= 2 ^ 31 - 1).
Proof.
  intros _. split.
  - intros (bs & Henc & Hdec). rewrite long_encode_eq in Henc.
    cbv zeta in Henc. injection Henc as <-.
    rewrite long_decode_quad in Hdec. injection Hdec as Hv.
    match type of Hv with
    | ((signed_byte ?b3 * 256 + ?b2) * 256 + ?b1) * 256 + ?b0 = _ =>
        pose proof (signed_byte_range b3
                      (Z.mod_pos_bound _ 256 ltac:(lia)));
        set (s3 := signed_byte b3) in *;
        assert (0 <= b2 < 256) by (apply Z.mod_pos_bound; lia);
        assert (0 <= b1 < 256) by (apply Z.mod_pos_bound; lia);
        assert (0 <= b0 < 256) by (apply Z.mod_pos_bound; lia)
    end.
    change (2 ^ 31) with 2147483648. lia.
  - intros Hv. eexists. split; [by apply long_encode_bytes|].
    by apply long_decode_bytes.
Qed.

Lemma long_roundtrip_iff_representable_witness :
  - 2 ^ 53 < -1 < 2 ^ 53 /\
  (exists bs, LongEncoder.encode (-1) = Ok bs /\ LongDecoder.decode bs = Ok (-1)).
Proof.
  assert (- 2 ^ 53 < -1 < 2 ^ 53) as Hv by lia. split; [exact Hv|].
  apply (long_roundtrip_iff_representable (-1) Hv). lia.
Defined.

(** ** The decoders on buffers of another length *)

(** X5: a decoder reads the first [encoded_len()] bytes of the buffer it is
    given: what follows them is ignored, and a shorter buffer raises
    [IndexError]. *)
Theorem decoders_read_prefix (bs extra : list Z) :
  (length bs = 4%nat ->
   LongDecoder.decode (PBytes (bs ++ extra)) = LongDecoder.decode (PBytes bs)) /\
  (length bs = 2%nat ->
   ShortDecoder.decode (PBytes (bs ++ extra))
   = ShortDecoder.decode (PBytes bs)) /\
  (length bs = 1%nat ->
   ByteDecoder.decode (PBytes (bs ++ extra)) = ByteDecoder.decode (PBytes bs)) /\
  ((length bs < 4)%nat -> LongDecoder.decode (PBytes bs) = Raise IndexError) /\
  ((length bs < 2)%nat -> ShortDecoder.decode (PBytes bs) = Raise IndexError) /\
  ((length bs < 1)%nat -> ByteDecoder.decode (PBytes bs) = Raise IndexError).
Proof.
  repeat split; intros Hlen;
    repeat (destruct bs as [|? bs]; simpl in Hlen; try lia);
    reflexivity.
Qed.

Lemma decoders_read_prefix_witness :
  (length [1; 2] = 2%nat /\
   ShortDecoder.decode (PBytes ([1; 2] ++ [9; 9])) = Ok 513) /\
  ((length [1; 2] < 4)%nat /\
   LongDecoder.decode (PBytes [1; 2]) = Raise IndexError).
Proof.
  split.
  - split; [reflexivity|].
    rewrite (proj1 (proj2 (decoders_read_prefix [1; 2] [9; 9])) eq_refl).
    reflexivity.
  - assert (length [1; 2] < 4)%nat as Hlen by (simpl; lia).
    split; [exact Hlen|].
    exact (proj1 (proj2 (proj2 (proj2 (decoders_read_prefix [1; 2] []))))
             Hlen).
Defined.

Lemma short_roundtrip_iff_representable_witness :
  (exists bs, ShortEncoder.encode (-1) = Ok bs /\ ShortDecoder.decode bs = Ok (-1))
  /\ ~ (exists bs,
          ShortEncoder.encode 40000 = Ok bs /\ ShortDecoder.decode bs = Ok 40000).
Proof.
  split.
  - apply (short_roundtrip_iff_representable (-1)). lia.
  - intros Hex. apply (short_roundtrip_iff_representable 40000) in Hex. lia.
Defined.

(** ** The system time *)

(** X6: for a time that is a Long and a scale that is a Short,
    [SystemTime] encodes the pair as six bytes, the Long encoding of the time
    followed by the Short encoding of the scale, and decodes these six bytes
    to the same pair. *)
Theorem system_time_roundtrip (time scale : Z) :
  - 2 ^ 31 <= time <= 2 ^ 31 - 1 ->
  -32768 <= scale <= 32767 ->
  let block := little_endian 4 (biased 32 time)
               ++ little_endian 2 (biased 16 scale) in
  SystemTime.encode (time, scale) = Ok (PBytes block) /\
  Z.of_nat (length block) = SystemTime.encoded_len /\
  SystemTime.decode (PBytes block) = Ok (time, scale).
Proof.
  intros Ht Hs block. split; [|split; [reflexivity|]].
  - unfold SystemTime.encode, ValueEncoder.encode, SystemTime._encode.
    rewrite long_encode_bytes, short_encode_bytes by lia.
    unfold block. rewrite little_endian_4, little_endian_2. reflexivity.
  - unfold SystemTime.decode, ValueDecoder.decode, SystemTime._decode, slice.
    cbn [mbind result_bind].
    replace (take (4 - 0) (drop 0 block))
      with (little_endian 4 (biased 32 time))
      by (unfold block; by rewrite little_endian_4, little_endian_2).
    replace (take (6 - 4) (drop 4 block))
      with (little_endian 2 (biased 16 scale))
      by (unfold block; by rewrite little_endian_4, little_endian_2).
    pose proof (long_decode_bytes time Ht) as Hl.
    pose proof (short_decode_bytes scale Hs) as Hsh.
    unfold LongDecoder.decode, ShortDecoder.decode, ValueDecoder.decode in *.
    by rewrite Hl, Hsh.
Qed.

Lemma system_time_roundtrip_witness :
  - 2 ^ 31 <= 1000 <= 2 ^ 31 - 1 /\
  -32768 <= -2 <= 32767 /\
  SystemTime.encode (1000, -2) = Ok (PBytes [232; 3; 0; 0; 254; 255]) /\
  SystemTime.decode (PBytes [232; 3; 0; 0; 254; 255]) = Ok (1000, -2).
Proof.
  assert (- 2 ^ 31 <= 1000 <= 2 ^ 31 - 1) as Ht by lia.
  assert (-32768 <= -2 <= 32767) as Hs by lia.
  split; [exact Ht|]. split; [exact Hs|].
  destruct (system_time_roundtrip 1000 (-2) Ht Hs) as (Henc & _ & Hdec).
  split; [exact Henc | exact Hdec].
Defined.

(** ** The type registry and the addresses of listed objects *)

(** X7: the registry gives every class back from its own type id and from
    no other id; in particular no two classes share a type id. *)
Theorem registry_roundtrip (n : Z) (cls : object_type) :
  BuiltInObjectTypes.from_id n = Some cls <-> BuiltInObjectTypes.as_id cls = n.
Proof.
  split.
  - intros Hsome.
    destruct (decide (n ∈ (type_id <$> BuiltInObjectTypes.all_types)))
      as [Hin|Hout].
    + simpl in Hin. rewrite !elem_of_cons in Hin.
      destruct Hin as [->|[->|[->|[->|[->|[->|[->|Hin]]]]]]];
        [..|by apply elem_of_nil in Hin];
        vm_compute in Hsome; injection Hsome as <-; reflexivity.
    + rewrite (from_id_unknown n Hout) in Hsome. discriminate.
  - intros <-. by destruct cls.
Qed.

Lemma id_chain_container_for (chain : list Z) :
  id_chain (container_for chain) = chain.
Proof. unfold container_for. by rewrite id_chain_foldl. Qed.



Lemma container_chain_and_id_snoc (chain : list Z) (slot : Z) :
  container_chain_and_id (chain ++ [slot]) = Ok (chain, slot).
Proof.
  unfold container_chain_and_id. rewrite last_snoc, length_app. simpl.
  replace (length chain + 1 - 1)%nat with (length chain) by lia.
  by rewrite take_app_length.
Qed.

Lemma chain_snoc (chain : list Z) :
  chain <> [] -> exists prefix slot, chain = prefix ++ [slot].
Proof.
  intros Hne. destruct (decide (chain = [])) as [|_]; [done|].
  induction chain as [|x chain IH] using rev_ind; [done|eauto].
Qed.

(** X8: an id-chain that is not empty splits into the container rebuilt
    from all items but the last and the last item as the slot, and asking
    that container for that slot gives the chain back; the empty chain has
    no last item and raises [IndexError]. *)
Theorem container_slot_of_chain (chain : list Z) :
  (chain = [] -> _container_slot_from_id_chain chain = Raise IndexError) /\
  (chain <> [] ->
   exists c slot,
     _container_slot_from_id_chain chain = Ok (c, slot) /\
     container_chain_and_id chain = Ok (id_chain c, slot) /\
     id_chain_for c slot = chain).
Proof.
  split; [by intros ->|].
  intros Hne. destruct (chain_snoc chain Hne) as (prefix & slot & ->).
  exists (container_for prefix), slot.
  unfold _container_slot_from_id_chain.
  rewrite container_chain_and_id_snoc. cbn [mbind result_bind].
  pose proof (id_chain_container_for prefix) as Hchain.
  split; [reflexivity|]. split; [by rewrite Hchain|].
  by rewrite id_chain_for_app, Hchain.
Qed.

Lemma container_slot_of_chain_witness :
  [80; 81; 82] <> [] /\
  _container_slot_from_id_chain [80; 81; 82]
  = Ok (Container (Container RootContainer 80) 81, 82) /\
  container_chain_and_id [80; 81; 82] = Ok ([80; 81], 82).
Proof.
  assert ([80; 81; 82] <> ([] : list Z)) as Hne by discriminate.
  split; [exact Hne|].
  destruct (proj2 (container_slot_of_chain [80; 81; 82]) Hne)
    as (c & slot & Hsplit & _ & _).
  split; reflexivity.
Defined.




(** ** Which definitions pass the check of [create_object] *)

Lemma short_roundtrip_representable (v : Z) (bs : pyval) :
  ShortEncoder.encode v = Ok bs -> ShortDecoder.decode bs = Ok v ->
  -32768 <= v <= 32767.
Proof.
  intros Henc Hdec. rewrite short_encode_eq in Henc. cbv zeta in Henc.
  set (u := if v <? 0 then v + 64 * 1024 else v) in *.
  set (hi := unsigned_byte (int_truediv u 256)) in *.
  destruct (Z.leb_spec 0 hi); [|discriminate].
  destruct (Z.ltb_spec hi 256); [|discriminate].
  simpl in Henc. injection Henc as <-.
  rewrite short_decode_pair in Hdec. injection Hdec as Hv.
  pose proof (signed_byte_range hi ltac:(lia)).
  pose proof (Z.mod_pos_bound u 256 ltac:(lia)). lia.
Qed.

Lemma short_encode_two_bytes (v : Z) (bs : pyval) :
  ShortEncoder.encode v = Ok bs -> exists b0 b1, bs = PBytes [b0; b1].
Proof.
  rewrite short_encode_eq. cbv zeta.
  destruct (_ && _); [|discriminate]. intros [= <-]. eauto.
Qed.

(** X11: [create_object] accepts the arguments [(value, threshold)] of a
    PersistChangeValue exactly when the value is a Short and the threshold
    is a Short that is not negative.  A value such as [40000], which
    [ShortEncoder] encodes without an error, is caught by the round-trip
    check. *)
Theorem persist_change_value_check (value threshold : Z) :
  (exists data,
     definition_check PersistChangeValue (PTuple [value; threshold]) = Ok data)
  <-> -32768 <= value <= 32767 /\ 0 <= threshold <= 32767.
Proof.
  unfold definition_check. rewrite decide_False by discriminate.
  cbn [encode_definition decode_definition truthy]. split.
  - intros (data & Hcheck).
    destruct (Z.ltb_spec threshold 0) as [Hneg|Hpos].
    { by rewrite encode_definition_negative_threshold in Hcheck. }
    rewrite encode_definition_shorts in Hcheck by lia.
    destruct (ShortEncoder.encode value) as [e0|] eqn:He0; [|discriminate].
    destruct (ShortEncoder.encode threshold) as [e1|] eqn:He1;
      [|discriminate].
    destruct (short_encode_two_bytes _ _ He0) as (a0 & a1 & ->).
    destruct (short_encode_two_bytes _ _ He1) as (b0 & b1 & ->).
    cbn in Hcheck.
    destruct (decide (_ ≠ _)) as [|Heq]; [discriminate|].
    apply dec_stable in Heq. injection Heq as Hv Ht.
    assert (ShortDecoder.decode (PBytes [a0; a1]) = Ok value) as Hd0
      by (rewrite short_decode_pair; by f_equal).
    assert (ShortDecoder.decode (PBytes [b0; b1]) = Ok threshold) as Hd1
      by (rewrite short_decode_pair; by f_equal).
    pose proof (short_roundtrip_representable _ _ He0 Hd0).
    pose proof (short_roundtrip_representable _ _ He1 Hd1). lia.
  - intros [Hv Ht]. rewrite encode_definition_block by lia.
    cbn [mbind result_bind].
    assert (truthy (PBytes (little_endian 2 (biased 16 value)
                            ++ little_endian 2 threshold)) = true) as ->
      by (by rewrite !little_endian_2).
    rewrite decode_definition_block by lia. cbn [mbind result_bind].
    rewrite decide_False by (intros Hne; by apply Hne). eauto.
Qed.

Lemma materialize_decoded (chain : list Z) (cls : object_type)
    (data args : pyval) :
  truthy data = true -> decode_definition cls data = Ok args ->
  _materialize_object_descriptor chain (type_id cls) data = ref cls args chain.
Proof.
  intros Hdata Hdec.
  assert (BuiltInObjectTypes.from_id (type_id cls) = Some cls) as Hcls
    by (by destruct cls).
  unfold _materialize_object_descriptor, ref. rewrite Hcls, Hdata, Hdec.
  by destruct (_container_slot_from_id_chain chain) as [[]|].
Qed.

(** X12: what is listed is what was created: for the arguments of a
    PersistChangeValue that [create_object] accepts, the block that
    [encode_definition] gives, listed back by the device at an id-chain with
    the type id of the class, becomes the reference to a PersistChangeValue
    at that id-chain with the same arguments. *)
Theorem persist_change_value_listed (value threshold : Z) (chain : list Z) :
  -32768 <= value <= 32767 -> 0 <= threshold <= 32767 ->
  exists block,
    encode_definition PersistChangeValue (PTuple [value; threshold])
    = Ok block /\
    _materialize_object_descriptor chain (type_id PersistChangeValue) block
    = ref PersistChangeValue (PTuple [value; threshold]) chain.
Proof.
  intros Hv Ht. eexists. split.
  - cbn [encode_definition]. by apply encode_definition_block.
  - apply materialize_decoded.
    + by rewrite !little_endian_2.
    + cbn [decode_definition]. by apply decode_definition_block.
Qed.

Lemma persist_change_value_listed_witness :
  -32768 <= 100 <= 32767 /\ 0 <= 5 <= 32767 /\
  encode_definition PersistChangeValue (PTuple [100; 5])
  = Ok (PBytes [100; 0; 5; 0]) /\
  _materialize_object_descriptor [4; 1] 9 (PBytes [100; 0; 5; 0])
  = Ok {| ref_controller := BaseController;
          ref_container := Container RootContainer 4; ref_slot := 1;
          ref_obj_class := Some PersistChangeValue;
          ref_args := PTuple [100; 5] |}.
Proof.
  assert (-32768 <= 100 <= 32767) as Hv by lia.
  assert (0 <= 5 <= 32767) as Ht by lia.
  split; [exact Hv|]. split; [exact Ht|].
  destruct (persist_change_value_listed 100 5 [4; 1] Hv Ht)
    as (block & Henc & Hmat).
  assert (block = PBytes [100; 0; 5; 0]) as -> by (by injection Henc).
  split; [reflexivity | exact Hmat].
Defined.

(** X13: creating without arguments never consults the definition of the
    class: the check passes with no block, also for a PersistentValue, whose
    definition otherwise wants a block that is not empty.  With arguments,
    the classes without a definition (CurrentTicks, DynamicContainer) refuse
    them with [ValueError], a PersistentValue takes any block that is not
    empty as it is and refuses an empty one with [ValueError], and the
    classes that only carry a type id fail with [AttributeError]. *)
Theorem definition_check_by_class (obj_class : object_type) (args : pyval) :
  definition_check obj_class PNone = Ok PNone /\
  (args <> PNone ->
   (obj_class = CurrentTicks \/ obj_class = DynamicContainer ->
    definition_check obj_class args = Raise ValueError) /\
   (instantiable obj_class = false ->
    definition_check obj_class args = Raise AttributeError) /\
   definition_check PersistentValue args
   = if truthy args then Ok args else Raise ValueError).
Proof.
  split; [reflexivity|]. intros Hargs.
  unfold definition_check. rewrite !decide_False by done.
  split; [|split].
  - by intros [-> | ->].
  - by destruct obj_class.
  - cbn [encode_definition decode_definition].
    unfold NonEmptyBlockDefinition.decode_definition,
      NonEmptyBlockDefinition.encode_definition.
    destruct (truthy args) eqn:Ht; [|reflexivity].
    cbn [negb mbind result_bind]. rewrite Ht.
    cbn [negb mbind result_bind]. rewrite Ht.
    cbn [negb mbind result_bind].
    by destruct (decide (args ≠ args)).
Qed.

Lemma definition_check_by_class_witness :
  PBytes [] <> PNone /\ PBytes [1; 2] <> PNone /\
  definition_check CurrentTicks (PBytes [1; 2]) = Raise ValueError /\
  instantiable ValueProfile = false /\
  definition_check ValueProfile (PBytes [1; 2]) = Raise AttributeError /\
  definition_check PersistentValue (PBytes [1; 2]) = Ok (PBytes [1; 2]) /\
  definition_check PersistentValue (PBytes []) = Raise ValueError.
Proof.
  assert (PBytes [] <> PNone) as He by discriminate.
  assert (PBytes [1; 2] <> PNone) as Hb by discriminate.
  split; [exact He|]. split; [exact Hb|].
  destruct (proj2 (definition_check_by_class CurrentTicks (PBytes [1; 2])) Hb)
    as (Hempty & _ & Hblock).
  destruct (proj2 (definition_check_by_class ValueProfile (PBytes [1; 2])) Hb)
    as (_ & Hbare & _).
  destruct (proj2 (definition_check_by_class PersistentValue (PBytes [])) He)
    as (_ & _ & Hnone).
  split; [apply Hempty; by left|]. split; [reflexivity|].
  split; [by apply Hbare|]. split; [exact Hblock | exact Hnone].
Defined.

(** ** More of the controller *)

Section MoreControllerProperties.
Context {D : Type} `{Protocol D}.

Lemma check_passes_tail (obj_class : object_type) (args data : pyval)
    (k : pyval -> M D nat) (w : world D) :
  definition_check obj_class args = Ok data ->
  (data ← lift (if decide (args = PNone) then Ok PNone
                else
                  e ← encode_definition obj_class args;
                  Ok (if truthy e then e else PNone));
   dec ← lift (if truthy args then decode_definition obj_class data
               else Ok args);
   if decide (dec ≠ args) then raise (mismatch_error args)
   else k data) w = k data w.
Proof.
  unfold definition_check, mbind, M_bind, lift, raise.
  destruct (if decide (args = PNone) then _ else _) as [data0|e1];
    cbn [result_bind]; [|discriminate].
  destruct (if truthy args then _ else _) as [dec|e2];
    cbn [result_bind]; [|discriminate].
  destruct (decide (dec ≠ args)); [discriminate|]. by intros [= ->].
Qed.

Lemma _create_object_eq (c : ContainerTraits) (obj_class : object_type)
    (s : Z) (data : pyval) (w : world D) :
  _create_object c obj_class s data w =
  let fn := p.create_object (id_chain_for c s) (type_id obj_class)
              (sent_block data) in
  (match answer fn w with
   | PInt code => if code <? 0 then Raise FailedOperationError else Ok tt
   | PNone | PBytes _ | PTuple _ => Raise TypeError
   end, sent fn w).
Proof.
  unfold _create_object, mbind, M_bind. cbv zeta. fold (sent_block data).
  rewrite _handle_error_eq.
  destruct (answer _ w) as [|code| |]; try reflexivity.
  rewrite andb_true_r. by destruct (code <? 0).
Qed.

Lemma create_tail_eq (obj_class : object_type) (c : ContainerTraits) (s : Z)
    (data : pyval) (w : world D) :
  (_ ← _create_object c obj_class s data; instantiate obj_class c s) w =
  let fn := p.create_object (id_chain_for c s) (type_id obj_class)
              (sent_block data) in
  create_outcome obj_class c s (sent fn w) (answer fn w).
Proof.
  unfold mbind, M_bind. rewrite _create_object_eq. cbv zeta.
  unfold create_outcome.
  destruct (answer _ w) as [|code| |]; try reflexivity.
  destruct (code <? 0); [reflexivity|]. by destruct obj_class.
Qed.

(** What [create_object] does, step by step. *)
Lemma create_object_eq (obj_class : object_type) (args : pyval)
    (container : option ContainerTraits) (slot : option Z) (w : world D) :
  create_object obj_class args container slot w =
  let c := default RootContainer container in
  let first := first_call container slot in
  let w1 := sent first w in
  match first_call_error slot (answer first w) with
  | Some e => (Raise e, w1)
  | None =>
      match definition_check obj_class args with
      | Raise e => (Raise e, w1)
      | Ok data =>
          let s := chosen_slot slot (answer first w) in
          let fn := p.create_object (id_chain_for c s) (type_id obj_class)
                      (sent_block data) in
          create_outcome obj_class c s (sent fn w1) (answer fn w1)
      end
  end.
Proof.
  destruct (definition_check obj_class args) as [data|e] eqn:Hcheck.
  2: { rewrite (create_object_check_fails _ _ _ _ _ _ Hcheck). cbv zeta.
       by destruct (first_call_error _ _). }
  unfold create_object, first_call, root_container, _root. cbv zeta.
  set (c := default RootContainer container).
  destruct slot as [s|].
  - pose proof (_delete_object_at_optional_eq (id_chain_for c s) w) as Hdel.
    destruct (answer (p.delete_object (id_chain_for c s)) w) as [|m| |];
      try (by rewrite (bind_raise _ _ _ _ _ Hdel)).
    rewrite (bind_ok _ _ _ _ _ Hdel). cbv beta.
    unfold mbind at 1, M_bind at 1, mret at 1, M_ret at 1.
    rewrite (check_passes_tail _ _ _ _ _ Hcheck).
    by rewrite create_tail_eq.
  - pose proof (_handle_error_eq (p.next_slot (id_chain c)) false w) as Hnext.
    fold (next_slot c) in Hnext.
    unfold mbind at 1, M_bind at 1, mret at 1, M_ret at 1.
    destruct (answer (p.next_slot (id_chain c)) w) as [|m| |];
      try (by rewrite (bind_raise _ _ _ _ _ Hnext)).
    simpl in *. destruct (m <? 0); simpl in Hnext.
    + by rewrite (bind_raise _ _ _ _ _ Hnext).
    + rewrite (bind_ok _ _ _ _ _ Hnext). cbv beta.
      rewrite (check_passes_tail _ _ _ _ _ Hcheck).
      by rewrite create_tail_eq.
Qed.

(** *** Creating objects *)

(** X14: when its first call goes through (a refused delete at the given
    slot is tolerated, a refused slot query is not), the definition check
    passes and the device accepts the create command, [create_object] has
    sent exactly these two calls, the create command carrying the id-chain
    of the slot in the container, the type id of the class and the block of
    the definition (an empty one without arguments), and it returns a new
    proxy bound to that container and slot. *)
Theorem create_object_success (obj_class : object_type) (args data : pyval)
    (container : option ContainerTraits) (slot : option Z) (w : world D)
    (code : Z) :
  let c := default RootContainer container in
  let first := first_call container slot in
  let s := chosen_slot slot (answer first w) in
  let fn := p.create_object (id_chain_for c s) (type_id obj_class)
              (sent_block data) in
  first_call_error slot (answer first w) = None ->
  definition_check obj_class args = Ok data ->
  instantiable obj_class = true ->
  answer fn (sent first w) = PInt code -> 0 <= code ->
  create_object obj_class args container slot w
  = (Ok (length (objects w)),
     World (device (sent fn (sent first w)))
       (trace w ++ [Sent first; Sent fn])
       (objects w ++ [ContainedObject.new c s])) /\
  ContainedObject.id_chain (ContainedObject.new c s) = Ok (id_chain_for c s).
Proof.
  intros c first s fn Hfirst Hcheck Hinst Hans Hcode.
  split; [|reflexivity]. subst c first s fn.
  rewrite create_object_eq. cbv zeta. rewrite Hfirst, Hcheck.
  unfold create_outcome. rewrite Hans, Hinst.
  replace (code <? 0) with false by (symmetry; apply Z.ltb_ge; lia).
  simpl. by rewrite <- app_assoc.
Qed.

(** X15: a [create_object] that raises leaves no proxy behind: the store of
    proxies is as before, and the device has seen either the first call
    alone or the first call and one create command. *)
Theorem create_object_failure_leaves_no_proxy (obj_class : object_type)
    (args : pyval) (container : option ContainerTraits) (slot : option Z)
    (w w' : world D) (e : exn) :
  create_object obj_class args container slot w = (Raise e, w') ->
  objects w' = objects w /\
  (w' = sent (first_call container slot) w \/
   exists chain data,
     w' = sent (p.create_object chain (type_id obj_class) data)
            (sent (first_call container slot) w)).
Proof.
  rewrite create_object_eq. cbv zeta.
  destruct (first_call_error _ _); [intros [= _ <-]; by auto|].
  destruct (definition_check _ _) as [data|]; [|intros [= _ <-]; by auto].
  unfold create_outcome.
  destruct (answer _ _) as [|code| |]; try (intros [= _ <-]; by eauto).
  destruct (code <? 0); [intros [= _ <-]; by eauto|].
  destruct (instantiable obj_class); [discriminate|].
  intros [= _ <-]; by eauto.
Qed.

(** X16: the classes that only carry a type id (ValueProfile,
    LogicActuator, BangBangController) can never be created as a proxy:
    [create_object] never returns for them, and without arguments, on a
    device that accepts the calls, it raises [TypeError] only after the
    create command has been sent. *)
Theorem create_object_of_bare_class (obj_class : object_type)
    (container : option ContainerTraits) (slot : option Z) (w : world D) :
  instantiable obj_class = false ->
  (forall args l w',
     create_object obj_class args container slot w <> (Ok l, w')) /\
  (forall code,
     let c := default RootContainer container in
     let first := first_call container slot in
     let s := chosen_slot slot (answer first w) in
     let fn := p.create_object (id_chain_for c s) (type_id obj_class)
                 (PBytes []) in
     first_call_error slot (answer first w) = None ->
     answer fn (sent first w) = PInt code -> 0 <= code ->
     create_object obj_class PNone container slot w
     = (Raise TypeError, sent fn (sent first w))).
Proof.
  intros Hbare. split.
  - intros args l w'. rewrite create_object_eq. cbv zeta.
    destruct (first_call_error _ _); [discriminate|].
    destruct (definition_check _ _); [|discriminate].
    unfold create_outcome. rewrite Hbare.
    destruct (answer _ _) as [|code| |]; try discriminate.
    by destruct (code <? 0).
  - intros code c first s fn Hfirst Hans Hcode. subst c first s fn.
    rewrite create_object_eq. cbv zeta. rewrite Hfirst.
    change (definition_check obj_class PNone) with (Ok PNone : result pyval).
    cbv iota beta. change (sent_block PNone) with (PBytes []).
    unfold create_outcome. rewrite Hans, Hbare.
    by replace (code <? 0) with false by (symmetry; apply Z.ltb_ge; lia).
Qed.

(** X17: an answer that never comes is not a tolerated failure: when the
    future is missing or times out, [_handle_error] raises [TypeError], with
    or without [allow_fail], and so does [create_object] right after its
    first call, also when that call is the tolerant delete. *)
Theorem absent_answer_is_type_error (fn : p.command) (allow_fail : bool)
    (obj_class : object_type) (args : pyval)
    (container : option ContainerTraits) (slot : option Z) (w : world D) :
  (answer fn w = PNone ->
   _handle_error fn allow_fail w = (Raise TypeError, sent fn w)) /\
  (answer (first_call container slot) w = PNone ->
   create_object obj_class args container slot w
   = (Raise TypeError, sent (first_call container slot) w)).
Proof.
  split.
  - intros Hans. by rewrite _handle_error_eq, Hans.
  - intros Hans. rewrite create_object_eq. cbv zeta. by rewrite Hans.
Qed.

(** *** Reading and writing values *)

Lemma write_value_eq {V} (obj : ValueObject V) (value : V) (encoded : pyval)
    (chain : list Z) (w : world D) :
  encode obj value = Ok encoded ->
  ContainedObject.id_chain (proxy obj) = Ok chain ->
  write_value obj value w =
  (if decide (answer (p.write_value chain encoded) w = encoded /\
              truthy encoded = true)
   then Ok tt else Raise FailedOperationError,
   sent (p.write_value chain encoded) w).
Proof.
  intros Henc Hchain. unfold write_value, _write_value.
  rewrite Henc, Hchain. unfold mbind, M_bind, lift.
  rewrite _fetch_data_block_eq.
  destruct (decide (_ /\ _)) as [[Heq Ht]|Hno].
  - rewrite Heq, Ht. by destruct (decide (encoded ≠ encoded)).
  - destruct (truthy (answer _ w)) eqn:Ht; [|reflexivity].
    destruct (decide (_ ≠ encoded)) as [|Heq]; [reflexivity|].
    apply dec_stable in Heq. exfalso. apply Hno.
    split; [exact Heq | by rewrite <- Heq].
Qed.

Lemma read_value_eq {V} (obj : ValueObject V) (chain : list Z)
    (w : world D) :
  ContainedObject.id_chain (proxy obj) = Ok chain ->
  read_value obj w =
  (if truthy (answer (p.read_value chain (encoded_len obj)) w)
   then decode obj (answer (p.read_value chain (encoded_len obj)) w)
   else Raise FailedOperationError,
   sent (p.read_value chain (encoded_len obj)) w).
Proof.
  intros Hchain. unfold read_value. rewrite Hchain.
  unfold mbind, M_bind, lift. rewrite _fetch_data_block_eq.
  by destruct (truthy _); [destruct (decode obj _)|].
Qed.

(** X18: [write_value] succeeds exactly when the device echoes the encoded
    bytes and these are not empty: an empty buffer can never be written,
    even to a device that echoes it. *)
Theorem write_value_succeeds_iff {V} (obj : ValueObject V) (value : V)
    (encoded : pyval) (chain : list Z) (w : world D) :
  encode obj value = Ok encoded ->
  ContainedObject.id_chain (proxy obj) = Ok chain ->
  (write_value obj value w = (Ok tt, sent (p.write_value chain encoded) w)
   <-> answer (p.write_value chain encoded) w = encoded /\
       truthy encoded = true) /\
  (truthy encoded = false ->
   write_value obj value w
   = (Raise FailedOperationError, sent (p.write_value chain encoded) w)).
Proof.
  intros Henc Hchain. rewrite (write_value_eq obj value encoded chain w) by done.
  split.
  - destruct (decide (_ /\ _)); split; done.
  - intros Hf. rewrite decide_False; [done|]. intros [_ Ht]. congruence.
Qed.

(** X19: what is written to a PersistChangeValue is what is read back: for a
    Short [v] and a live proxy, on a device that echoes the write and then
    answers the read with the bytes it was sent, writing [v] and reading
    gives [v], with exactly one write and one read of two bytes sent. *)
Theorem persist_change_value_write_then_read (o : ContainedObject)
    (chain : list Z) (v : Z) (w : world D) :
  let obj := PersistChangeValue_obj o in
  let encoded := PBytes (little_endian 2 (biased 16 v)) in
  -32768 <= v <= 32767 ->
  ContainedObject.id_chain o = Ok chain ->
  answer (p.write_value chain encoded) w = encoded ->
  answer (p.read_value chain 2) (sent (p.write_value chain encoded) w)
  = encoded ->
  (_ ← write_value obj v; read_value obj) w
  = (Ok v, sent (p.read_value chain 2) (sent (p.write_value chain encoded) w)).
Proof.
  intros obj encoded Hv Hchain Hecho Hstored.
  assert (truthy encoded = true) as Ht
    by (unfold encoded; by rewrite little_endian_2).
  assert (write_value obj v w
          = (Ok tt, sent (p.write_value chain encoded) w)) as Hw.
  { rewrite (write_value_eq obj v encoded chain w);
      [|by apply short_encode_bytes | exact Hchain].
    by rewrite decide_True. }
  rewrite (bind_ok _ _ _ _ _ Hw).
  rewrite (read_value_eq obj chain) by exact Hchain.
  change (encoded_len obj) with 2. rewrite Hstored, Ht.
  change (decode obj encoded) with (ShortDecoder.decode encoded).
  unfold encoded. by rewrite short_decode_bytes.
Qed.

(** *** Proxies after delete *)

Lemma delete_accepted_eq (self : nat) (o : ContainedObject) (chain : list Z)
    (n : Z) (w : world D) :
  objects w !! self = Some o ->
  controller o = Some BaseController ->
  ContainedObject.id_chain o = Ok chain ->
  answer (p.delete_object chain) w = PInt n -> 0 <= n ->
  InstantiableObject_delete self w
  = (Ok tt,
     World (device (sent (p.delete_object chain) w))
       (trace w ++ [Sent (p.delete_object chain)])
       (<[self:=detached]> (objects w))).
Proof.
  intros Hself Hctl Hchain Hn Hpos.
  pose proof (delete_object_eq o chain w Hchain) as Hdel.
  rewrite Hn in Hdel.
  replace (n <? 0) with false in Hdel by (symmetry; apply Z.ltb_ge; lia).
  assert (deref self w = (Ok o, w)) as Hderef
    by (unfold deref; by rewrite Hself).
  unfold InstantiableObject_delete.
  rewrite (bind_ok _ _ _ _ _ Hderef). cbv beta. rewrite Hctl.
  rewrite (bind_ok _ _ _ _ _ Hdel). cbv beta.
  unfold mbind, M_bind, assign, sent; simpl.
  by rewrite !list_insert_insert_eq.
Qed.

(** X20: a proxy is of no use after its delete: once the device has
    accepted the delete, reading or writing through the proxy raises
    [AttributeError] and sends nothing more to the device. *)
Theorem deleted_proxy_is_unusable {V} (cls : ContainedObject -> ValueObject V)
    (self : nat) (o : ContainedObject) (chain : list Z) (value : V) (n : Z)
    (w : world D) :
  objects w !! self = Some o ->
  controller o = Some BaseController ->
  ContainedObject.id_chain o = Ok chain ->
  answer (p.delete_object chain) w = PInt n -> 0 <= n ->
  let w1 := World (device (sent (p.delete_object chain) w))
              (trace w ++ [Sent (p.delete_object chain)])
              (<[self:=detached]> (objects w)) in
  (_ ← InstantiableObject_delete self; ReadWriteUserObject_read cls self) w
  = (Raise AttributeError, w1) /\
  (_ ← InstantiableObject_delete self;
   ReadWriteUserObject_write cls self value) w
  = (Raise AttributeError, w1).
Proof.
  intros Hself Hctl Hchain Hn Hpos w1.
  pose proof (delete_accepted_eq self o chain n w Hself Hctl Hchain Hn Hpos)
    as Hdel.
  assert (deref self w1 = (Ok detached, w1)) as Hderef.
  { unfold deref, w1; simpl.
    by rewrite list_lookup_insert_eq by (by eapply lookup_lt_Some). }
  split; rewrite (bind_ok _ _ _ _ _ Hdel); cbv beta.
  - unfold ReadWriteUserObject_read. by rewrite (bind_ok _ _ _ _ _ Hderef).
  - unfold ReadWriteUserObject_write. by rewrite (bind_ok _ _ _ _ _ Hderef).
Qed.

(** X21: the proxy that [create_object] returns deletes the object it
    created: after a successful create, [delete] on the new proxy sends the
    device delete for the very id-chain of the create command, and leaves
    the proxy detached. *)
Theorem create_then_delete (obj_class : object_type) (args data : pyval)
    (container : option ContainerTraits) (slot : option Z) (w : world D)
    (code n : Z) :
  let c := default RootContainer container in
  let first := first_call container slot in
  let s := chosen_slot slot (answer first w) in
  let chain := id_chain_for c s in
  let fn := p.create_object chain (type_id obj_class) (sent_block data) in
  let w2 := World (device (sent fn (sent first w)))
              (trace w ++ [Sent first; Sent fn])
              (objects w ++ [ContainedObject.new c s]) in
  first_call_error slot (answer first w) = None ->
  definition_check obj_class args = Ok data ->
  instantiable obj_class = true ->
  answer fn (sent first w) = PInt code -> 0 <= code ->
  answer (p.delete_object chain) w2 = PInt n -> 0 <= n ->
  (l ← create_object obj_class args container slot;
   InstantiableObject_delete l) w
  = (Ok tt,
     World (device (sent (p.delete_object chain) w2))
       (trace w ++ [Sent first; Sent fn; Sent (p.delete_object chain)])
       (objects w ++ [detached])).
Proof.
  intros c first s chain fn w2 Hfirst Hcheck Hinst Hans Hcode Hdel Hn.
  assert (create_object obj_class args container slot w
          = (Ok (length (objects w)), w2)) as Hcreate.
  { subst w2 fn chain s first c.
    rewrite create_object_eq. cbv zeta. rewrite Hfirst, Hcheck.
    unfold create_outcome. rewrite Hans, Hinst.
    replace (code <? 0) with false by (symmetry; apply Z.ltb_ge; lia).
    simpl. by rewrite <- app_assoc. }
  rewrite (bind_ok _ _ _ _ _ Hcreate). cbv beta.
  rewrite (delete_accepted_eq (length (objects w))
             (ContainedObject.new c s) chain n w2);
    [|by apply list_lookup_middle | reflexivity | reflexivity
     | exact Hdel | exact Hn].
  f_equal. unfold w2; simpl. f_equal.
  - by rewrite <- app_assoc.
  - rewrite insert_app_r_alt by lia.
    by replace (length (objects w) - length (objects w))%nat with 0%nat
      by lia.
Qed.

(** *** When the system id cannot be read *)

(** X22: when the read of the system id brings nothing back, [initialize]
    and an erasing [reset] stop there with [FailedOperationError]:
    [fetch_id] is not asked, nothing is written, no id is handed back to the
    id service and no reset command is sent. *)
Theorem unreadable_system_id_stops (fetch_id : M D pyval)
    (hard_reset : bool) (w : world D) :
  truthy (answer (p.read_system_value [0] 1) w) = false ->
  initialize fetch_id w
  = (Raise FailedOperationError, sent (p.read_system_value [0] 1) w) /\
  reset true hard_reset w
  = (Raise FailedOperationError, sent (p.read_system_value [0] 1) w).
Proof.
  intros Hread. pose proof (read_system_id_eq w) as Hr.
  rewrite Hread in Hr. split.
  - unfold initialize. by rewrite (bind_raise _ _ _ _ _ Hr).
  - unfold reset.
    assert ((current_id ← ReadWriteSystemObject_read system_id;
             id_service.return_id current_id) w
            = (Raise FailedOperationError,
               sent (p.read_system_value [0] 1) w)) as Hpre
      by (by rewrite (bind_raise _ _ _ _ _ Hr)).
    by rewrite (bind_raise _ _ _ _ _ Hpre).
Qed.

(** *** Profiles *)

Lemma active_and_available_eq (w : world D) :
  active_and_available_profiles w =
  ((first ← getitem (answer p.list_profiles w) 0;
    rest ← items_from_1 (answer p.list_profiles w);
    Ok (profile_for first, profile_for <$> (rest : list Z)))
   : result (option Profile * list (option Profile)),
   sent p.list_profiles w).
Proof.
  unfold active_and_available_profiles.
  rewrite (bind_ok _ _ _ _ _ (send_eq p.list_profiles w)).
  fold (answer p.list_profiles w).
  unfold mbind at 1 2, M_bind, lift, mret, M_ret.
  destruct (getitem _ 0) as [first|]; [|reflexivity].
  by destruct (items_from_1 _) as [rest|].
Qed.


(** X23: [create_profile] gives the profile whose id the device answered;
    a negative answer is a failed operation, so a profile that is returned
    is never the absent one. *)
Theorem create_profile_gives_device_id (w : world D) (n : Z) :
  answer p.create_profile w = PInt n ->
  create_profile w
  = (if n <? 0 then Raise FailedOperationError
     else Ok (Some {| profile_id := n |}),
     sent p.create_profile w).
Proof.
  intros Hn. unfold create_profile, mbind, M_bind, mret, M_ret.
  rewrite _handle_error_eq, Hn. rewrite andb_true_r.
  destruct (Z.ltb_spec n 0); [reflexivity|].
  unfold profile_for.
  by replace (0 <=? n) with true by (symmetry; apply Z.leb_le; lia).
Qed.

(** X24: [active_and_available_profiles] sends one listing call and reads
    the answer as a flat sequence: the first item is the active profile,
    absent when it is negative, and the items after it are the available
    profiles; an empty answer raises [IndexError] and an answer that never
    comes raises [TypeError]. *)
Theorem profiles_listing (w : world D) :
  (forall a ids, answer p.list_profiles w = PTuple (a :: ids) ->
     active_and_available_profiles w
     = (Ok (profile_for a, profile_for <$> ids), sent p.list_profiles w)) /\
  (forall ids, answer p.list_profiles w = PTuple (-1 :: ids) ->
     forall r w', active_and_available_profiles w = (Ok r, w') ->
     r.1 = None) /\
  (answer p.list_profiles w = PTuple [] \/
   answer p.list_profiles w = PBytes [] ->
   active_and_available_profiles w
   = (Raise IndexError, sent p.list_profiles w)) /\
  (answer p.list_profiles w = PNone ->
   active_and_available_profiles w
   = (Raise TypeError, sent p.list_profiles w)).
Proof.
  rewrite active_and_available_eq. repeat split.
  - intros a ids ->. reflexivity.
  - intros ids -> r w' [= <- _]. reflexivity.
  - by intros [-> | ->].
  - by intros ->.
Qed.

Lemma is_active_profile_eq (prof : Profile) (a : Z) (ids : list Z)
    (w : world D) :
  answer p.list_profiles w = PTuple (a :: ids) ->
  is_active_profile prof w
  = (Ok (bool_decide (0 <= a /\ a = profile_id prof)), sent p.list_profiles w).
Proof.
  intros Hans. unfold is_active_profile, mbind, M_bind, mret, M_ret.
  rewrite active_and_available_eq, Hans. simpl. unfold profile_for.
  destruct (Z.leb_spec 0 a); simpl; do 2 f_equal.
  - apply bool_decide_ext. intuition.
  - symmetry. apply bool_decide_eq_false. lia.
Qed.

(** X25: with the listing [(a, ids...)], a profile is active exactly when
    its id is [a] and [a] is not negative; so at most one profile id is
    active in a given state of the device, and none when [a] is [-1]. *)
Theorem active_profile_is_exclusive (prof other : Profile) (a : Z)
    (ids : list Z) (w : world D) :
  answer p.list_profiles w = PTuple (a :: ids) ->
  is_active_profile prof w
  = (Ok (bool_decide (0 <= a /\ a = profile_id prof)), sent p.list_profiles w)
  /\
  ((is_active_profile prof w).1 = Ok true ->
   (is_active_profile other w).1 = Ok true ->
   profile_id prof = profile_id other) /\
  (a < 0 -> (is_active_profile prof w).1 = Ok false).
Proof.
  intros Hans.
  rewrite !(is_active_profile_eq _ a ids w Hans). simpl.
  split; [reflexivity|]. split.
  - intros [= H1] [= H2].
    apply bool_decide_eq_true in H1, H2. lia.
  - intros Hneg. f_equal. apply bool_decide_eq_false. lia.
Qed.

(** X26: [Profile.deactivate] asks the device which profile is active, and
    only when it is this one does it send the deactivation, which is the
    activation of profile [-1]; on any other profile it sends nothing
    more. *)
Theorem deactivate_only_when_active (self : Profile) (a : Z) (ids : list Z)
    (w : world D) :
  answer p.list_profiles w = PTuple (a :: ids) ->
  (0 <= a /\ a = profile_id self ->
   Profile_deactivate self w = activate_profile None (sent p.list_profiles w)
   /\
   trace (Profile_deactivate self w).2
   = trace w ++ [Sent p.list_profiles; Sent (p.activate_profile (-1))]) /\
  (~ (0 <= a /\ a = profile_id self) ->
   Profile_deactivate self w = (Ok tt, sent p.list_profiles w)).
Proof.
  intros Hans. pose proof (is_active_profile_eq self a ids w Hans) as Hact.
  unfold Profile_deactivate, Profile_is_active. split; intros Hcond.
  - rewrite bool_decide_eq_true_2 in Hact by exact Hcond.
    rewrite (bind_ok _ _ _ _ _ Hact). split; [reflexivity|].
    unfold activate_profile, mbind, M_bind. rewrite _handle_error_eq.
    simpl. destruct (match answer _ _ with PInt _ => _ | _ => _ end);
      simpl; by rewrite <- app_assoc.
  - rewrite bool_decide_eq_false_2 in Hact by exact Hcond.
    by rewrite (bind_ok _ _ _ _ _ Hact).
Qed.





(** *** The system time through the controller *)

Lemma system_time_encode_block (time scale : Z) :
  - 2 ^ 31 <= time <= 2 ^ 31 - 1 -> -32768 <= scale <= 32767 ->
  SystemTime.encode (time, scale)
  = Ok (PBytes (little_endian 4 (biased 32 time)
                ++ little_endian 2 (biased 16 scale))).
Proof.
  intros Ht Hs.
  unfold SystemTime.encode, ValueEncoder.encode, SystemTime._encode.
  rewrite long_encode_bytes, short_encode_bytes by lia.
  rewrite little_endian_4, little_endian_2. reflexivity.
Qed.

Lemma system_time_decode_block (time scale : Z) :
  - 2 ^ 31 <= time <= 2 ^ 31 - 1 -> -32768 <= scale <= 32767 ->
  SystemTime.decode (PBytes (little_endian 4 (biased 32 time)
                             ++ little_endian 2 (biased 16 scale)))
  = Ok (time, scale).
Proof.
  intros Ht Hs.
  unfold SystemTime.decode, ValueDecoder.decode, SystemTime._decode, slice.
  cbn [mbind result_bind].
  replace (take (4 - 0) (drop 0 (little_endian 4 (biased 32 time)
                                 ++ little_endian 2 (biased 16 scale))))
    with (little_endian 4 (biased 32 time))
    by (by rewrite little_endian_4, little_endian_2).
  replace (take (6 - 4) (drop 4 (little_endian 4 (biased 32 time)
                                 ++ little_endian 2 (biased 16 scale))))
    with (little_endian 2 (biased 16 scale))
    by (by rewrite little_endian_4, little_endian_2).
  pose proof (long_decode_bytes time Ht) as Hl.
  pose proof (short_decode_bytes scale Hs) as Hsh.
  unfold LongDecoder.decode, ShortDecoder.decode, ValueDecoder.decode in *.
  by rewrite Hl, Hsh.
Qed.

Lemma write_system_eq {V} (obj : ValueObject V) (value : V)
    (encoded : pyval) (chain : list Z) (w : world D) :
  controller (proxy obj) = Some BaseController ->
  encode obj value = Ok encoded ->
  ContainedObject.id_chain (proxy obj) = Ok chain ->
  ReadWriteSystemObject_write obj value w =
  (if decide (answer (p.write_system_value chain encoded) w = encoded /\
              truthy encoded = true)
   then Ok tt else Raise FailedOperationError,
   sent (p.write_system_value chain encoded) w).
Proof.
  intros Hctl Henc Hchain.
  unfold ReadWriteSystemObject_write, write_system_value, _write_value.
  rewrite Hctl, Henc, Hchain. unfold mbind, M_bind, lift.
  rewrite _fetch_data_block_eq.
  destruct (decide (_ /\ _)) as [[Heq Ht]|Hno].
  - rewrite Heq, Ht. by destruct (decide (encoded ≠ encoded)).
  - destruct (truthy (answer _ w)) eqn:Ht; [|reflexivity].
    destruct (decide (_ ≠ encoded)) as [|Heq]; [reflexivity|].
    apply dec_stable in Heq. exfalso. apply Hno.
    split; [exact Heq | by rewrite <- Heq].
Qed.

Lemma read_system_eq {V} (obj : ValueObject V) (chain : list Z)
    (w : world D) :
  controller (proxy obj) = Some BaseController ->
  ContainedObject.id_chain (proxy obj) = Ok chain ->
  ReadWriteSystemObject_read obj w =
  (if truthy (answer (p.read_system_value chain (encoded_len obj)) w)
   then decode obj (answer (p.read_system_value chain (encoded_len obj)) w)
   else Raise FailedOperationError,
   sent (p.read_system_value chain (encoded_len obj)) w).
Proof.
  intros Hctl Hchain. unfold ReadWriteSystemObject_read, read_system_value.
  rewrite Hctl, Hchain. unfold mbind, M_bind, lift.
  rewrite _fetch_data_block_eq.
  by destruct (truthy _); [destruct (decode obj _)|].
Qed.

(** X28: the system time lives at slot 1 of the system root and crosses the
    protocol as six bytes: writing a pair of a Long time and a Short scale
    sends these six bytes to id-chain [(1,)] as a system value, and on a
    device that echoes them and answers the next read with them, reading
    the system time gives the pair back. *)
Theorem system_time_write_then_read (time scale : Z) (w : world D) :
  let block := PBytes (little_endian 4 (biased 32 time)
                       ++ little_endian 2 (biased 16 scale)) in
  let write := p.write_system_value [1] block in
  let read := p.read_system_value [1] 6 in
  - 2 ^ 31 <= time <= 2 ^ 31 - 1 -> -32768 <= scale <= 32767 ->
  answer write w = block ->
  answer read (sent write w) = block ->
  (_ ← ReadWriteSystemObject_write system_time (time, scale);
   ReadWriteSystemObject_read system_time) w
  = (Ok (time, scale), sent read (sent write w)).
Proof.
  intros block write read Ht Hs Hecho Hstored.
  assert (truthy block = true) as Htruthy
    by (unfold block; by rewrite little_endian_4).
  assert (ReadWriteSystemObject_write system_time (time, scale) w
          = (Ok tt, sent write w)) as Hw.
  { rewrite (write_system_eq system_time (time, scale) block [1] w);
      [|reflexivity | by apply system_time_encode_block | reflexivity].
    by rewrite decide_True. }
  rewrite (bind_ok _ _ _ _ _ Hw).
  rewrite (read_system_eq system_time [1]) by reflexivity.
  change (encoded_len system_time) with 6. fold read.
  rewrite Hstored, Htruthy.
  change (decode system_time block) with (SystemTime.decode block).
  unfold block. by rewrite (system_time_decode_block time scale Ht Hs).
Qed.
End MoreControllerProperties.

(** ** The further properties at work on the scripted device *)

Lemma create_object_success_witness :
  let args := PTuple [100; 5] in
  let w := World (replies [PInt 3; PInt 0]) [] [] in
  let fn := p.create_object [3] 9 (PBytes [100; 0; 5; 0]) in
  first_call_error None (answer (first_call None None) w) = None /\
  definition_check PersistChangeValue args = Ok (PBytes [100; 0; 5; 0]) /\
  instantiable PersistChangeValue = true /\
  answer fn (sent (first_call None None) w) = PInt 0 /\ 0 <= 0 /\
  create_object PersistChangeValue args None None w
  = (Ok 0%nat,
     World [] [Sent (p.next_slot []); Sent fn]
       [ContainedObject.new RootContainer 3]).
Proof.
  intros args w fn.
  assert (first_call_error None (answer (first_call None None) w) = None)
    as Hfirst by reflexivity.
  assert (definition_check PersistChangeValue args
          = Ok (PBytes [100; 0; 5; 0])) as Hcheck by reflexivity.
  assert (answer fn (sent (first_call None None) w) = PInt 0) as Hans
    by reflexivity.
  assert (0 <= 0) as Hcode by lia.
  split; [exact Hfirst|]. split; [exact Hcheck|]. split; [reflexivity|].
  split; [exact Hans|]. split; [exact Hcode|].
  exact (proj1 (create_object_success PersistChangeValue args
                  (PBytes [100; 0; 5; 0]) None None w 0
                  Hfirst Hcheck eq_refl Hans Hcode)).
Defined.

Lemma create_object_failure_leaves_no_proxy_witness :
  let w := World (replies [PInt 3; PInt (-1)]) [] [] in
  let w' := World [] [Sent (p.next_slot []);
                      Sent (p.create_object [3] 3 (PBytes []))] [] in
  create_object CurrentTicks PNone None None w
  = (Raise FailedOperationError, w') /\
  objects w' = objects w.
Proof.
  intros w w'.
  assert (create_object CurrentTicks PNone None None w
          = (Raise FailedOperationError, w')) as Hfail by reflexivity.
  split; [exact Hfail|].
  exact (proj1 (create_object_failure_leaves_no_proxy CurrentTicks PNone
                  None None w w' FailedOperationError Hfail)).
Defined.

Lemma create_object_of_bare_class_witness :
  let w := World (replies [PInt 0; PInt 0]) [] [] in
  instantiable ValueProfile = false /\
  first_call_error (Some 2) (answer (first_call None (Some 2)) w) = None /\
  answer (p.create_object [2] 6 (PBytes []))
    (sent (first_call None (Some 2)) w) = PInt 0 /\
  0 <= 0 /\
  create_object ValueProfile PNone None (Some 2) w
  = (Raise TypeError,
     World [] [Sent (p.delete_object [2]);
               Sent (p.create_object [2] 6 (PBytes []))] []).
Proof.
  intros w.
  assert (instantiable ValueProfile = false) as Hbare by reflexivity.
  assert (first_call_error (Some 2) (answer (first_call None (Some 2)) w)
          = None) as Hfirst by reflexivity.
  assert (answer (p.create_object [2] 6 (PBytes []))
            (sent (first_call None (Some 2)) w) = PInt 0) as Hans
    by reflexivity.
  assert (0 <= 0) as Hcode by lia.
  split; [exact Hbare|]. split; [exact Hfirst|]. split; [exact Hans|].
  split; [exact Hcode|].
  exact (proj2 (create_object_of_bare_class ValueProfile None (Some 2) w
                  Hbare) 0 Hfirst Hans Hcode).
Defined.

Lemma absent_answer_is_type_error_witness :
  let w := World (replies []) [] [] in
  answer (p.delete_object [2]) w = PNone /\
  _handle_error (p.delete_object [2]) true w
  = (Raise TypeError, World [] [Sent (p.delete_object [2])] []) /\
  answer (first_call None (Some 2)) w = PNone /\
  create_object CurrentTicks PNone None (Some 2) w
  = (Raise TypeError, World [] [Sent (p.delete_object [2])] []).
Proof.
  intros w.
  assert (answer (p.delete_object [2]) w = PNone) as Hans by reflexivity.
  assert (answer (first_call None (Some 2)) w = PNone) as Hfirst
    by reflexivity.
  split; [exact Hans|]. split.
  - exact (proj1 (absent_answer_is_type_error (p.delete_object [2]) true
                    CurrentTicks PNone None (Some 2) w) Hans).
  - split; [exact Hfirst|].
    exact (proj2 (absent_answer_is_type_error (p.delete_object [2]) true
                    CurrentTicks PNone None (Some 2) w) Hfirst).
Defined.

Lemma write_value_succeeds_iff_witness :
  let o := ContainedObject.new RootContainer 2 in
  let echoing := World (replies [PBytes [100; 0]]) [] [] in
  let empty := World (replies [PBytes []]) [] [] in
  (encode (PersistChangeValue_obj o) 100 = Ok (PBytes [100; 0]) /\
   ContainedObject.id_chain o = Ok [2] /\
   write_value (PersistChangeValue_obj o) 100 echoing
   = (Ok tt, World [] [Sent (p.write_value [2] (PBytes [100; 0]))] [])) /\
  (encode (PersistentValue_obj o) (PBytes []) = Ok (PBytes []) /\
   truthy (PBytes []) = false /\
   write_value (PersistentValue_obj o) (PBytes []) empty
   = (Raise FailedOperationError,
      World [] [Sent (p.write_value [2] (PBytes []))] [])).
Proof.
  intros o echoing empty.
  assert (ContainedObject.id_chain o = Ok [2]) as Hchain by reflexivity.
  split.
  - assert (encode (PersistChangeValue_obj o) 100 = Ok (PBytes [100; 0]))
      as Henc by reflexivity.
    split; [exact Henc|]. split; [exact Hchain|].
    assert (answer (p.write_value [2] (PBytes [100; 0])) echoing
            = PBytes [100; 0] /\ truthy (PBytes [100; 0]) = true) as Hecho
      by (split; reflexivity).
    exact (proj2 (proj1 (write_value_succeeds_iff (PersistChangeValue_obj o)
                           100 (PBytes [100; 0]) [2] echoing Henc Hchain))
             Hecho).
  - assert (encode (PersistentValue_obj o) (PBytes []) = Ok (PBytes []))
      as Henc by reflexivity.
    split; [exact Henc|]. split; [reflexivity|].
    exact (proj2 (write_value_succeeds_iff (PersistentValue_obj o)
                    (PBytes []) (PBytes []) [2] empty Henc Hchain) eq_refl).
Defined.

Lemma persist_change_value_write_then_read_witness :
  let o := ContainedObject.new (Container RootContainer 4) 1 in
  let w := World (replies [PBytes [156; 255]; PBytes [156; 255]]) [] [] in
  -32768 <= -100 <= 32767 /\
  ContainedObject.id_chain o = Ok [4; 1] /\
  (_ ← write_value (PersistChangeValue_obj o) (-100);
   read_value (PersistChangeValue_obj o)) w
  = (Ok (-100),
     World [] [Sent (p.write_value [4; 1] (PBytes [156; 255]));
               Sent (p.read_value [4; 1] 2)] []).
Proof.
  intros o w.
  assert (-32768 <= -100 <= 32767) as Hv by lia.
  assert (ContainedObject.id_chain o = Ok [4; 1]) as Hchain by reflexivity.
  split; [exact Hv|]. split; [exact Hchain|].
  assert (answer (p.write_value [4; 1]
                    (PBytes (little_endian 2 (biased 16 (-100))))) w
          = PBytes (little_endian 2 (biased 16 (-100)))) as Hecho
    by reflexivity.
  assert (answer (p.read_value [4; 1] 2)
            (sent (p.write_value [4; 1]
                     (PBytes (little_endian 2 (biased 16 (-100))))) w)
          = PBytes (little_endian 2 (biased 16 (-100)))) as Hstored
    by reflexivity.
  exact (persist_change_value_write_then_read o [4; 1] (-100) w
           Hv Hchain Hecho Hstored).
Defined.

Lemma deleted_proxy_is_unusable_witness :
  let o := ContainedObject.new RootContainer 2 in
  let w := World (replies [PInt 0; PBytes [1; 0]]) [] [o] in
  objects w !! 0%nat = Some o /\
  answer (p.delete_object [2]) w = PInt 0 /\
  (_ ← InstantiableObject_delete 0;
   ReadWriteUserObject_read PersistChangeValue_obj 0) w
  = (Raise AttributeError,
     World (replies [PBytes [1; 0]]) [Sent (p.delete_object [2])] [detached]).
Proof.
  intros o w.
  assert (objects w !! 0%nat = Some o) as Hself by reflexivity.
  assert (answer (p.delete_object [2]) w = PInt 0) as Hans by reflexivity.
  assert (ContainedObject.id_chain o = Ok [2]) as Hchain by reflexivity.
  assert (0 <= 0) as Hpos by lia.
  split; [exact Hself|]. split; [exact Hans|].
  exact (proj1 (deleted_proxy_is_unusable PersistChangeValue_obj 0 o [2] 7 0 w
                  Hself eq_refl Hchain Hans Hpos)).
Defined.

Lemma create_then_delete_witness :
  let w := World (replies [PInt 3; PInt 0; PInt 0]) [] [] in
  (l ← create_object CurrentTicks PNone None None;
   InstantiableObject_delete l) w
  = (Ok tt,
     World [] [Sent (p.next_slot []);
               Sent (p.create_object [3] 3 (PBytes []));
               Sent (p.delete_object [3])] [detached]).
Proof.
  intros w.
  assert (first_call_error None (answer (first_call None None) w) = None)
    as Hfirst by reflexivity.
  assert (definition_check CurrentTicks PNone = Ok PNone) as Hcheck
    by reflexivity.
  assert (answer (p.create_object [3] 3 (PBytes []))
            (sent (first_call None None) w) = PInt 0) as Hans by reflexivity.
  assert (answer (p.delete_object [3])
            (World (replies [PInt 0]) [Sent (p.next_slot []);
                       Sent (p.create_object [3] 3 (PBytes []))]
               [ContainedObject.new RootContainer 3]) = PInt 0) as Hdel
    by reflexivity.
  assert (0 <= 0) as Hpos by lia.
  exact (create_then_delete CurrentTicks PNone PNone None None w 0 0
           Hfirst Hcheck eq_refl Hans Hpos Hdel Hpos).
Defined.

Lemma unreadable_system_id_stops_witness :
  let w := World (replies []) [] [] in
  truthy (answer (p.read_system_value [0] 1) w) = false /\
  initialize acquire_42 w
  = (Raise FailedOperationError, World [] [Sent (p.read_system_value [0] 1)] [])
  /\
  reset true true w
  = (Raise FailedOperationError, World [] [Sent (p.read_system_value [0] 1)] []).
Proof.
  intros w.
  assert (truthy (answer (p.read_system_value [0] 1) w) = false) as Hread
    by reflexivity.
  split; [exact Hread|].
  exact (unreadable_system_id_stops acquire_42 true w Hread).
Defined.

Lemma create_profile_gives_device_id_witness :
  let w := World (replies [PInt 4]) [] [] in
  answer p.create_profile w = PInt 4 /\
  create_profile w
  = (Ok (Some {| profile_id := 4 |}), World [] [Sent p.create_profile] []).
Proof.
  intros w.
  assert (answer p.create_profile w = PInt 4) as Hans by reflexivity.
  split; [exact Hans|].
  exact (create_profile_gives_device_id w 4 Hans).
Defined.

Lemma profiles_listing_witness :
  let listed := World (replies [PTuple [-1; 0; 1]]) [] [] in
  let empty := World (replies [PTuple []]) [] [] in
  let silent := World (replies []) [] [] in
  (answer p.list_profiles listed = PTuple [-1; 0; 1] /\
   active_and_available_profiles listed
   = (Ok (None, [Some {| profile_id := 0 |}; Some {| profile_id := 1 |}]),
      World [] [Sent p.list_profiles] [])) /\
  (answer p.list_profiles empty = PTuple [] /\
   active_and_available_profiles empty
   = (Raise IndexError, World [] [Sent p.list_profiles] [])) /\
  (answer p.list_profiles silent = PNone /\
   active_and_available_profiles silent
   = (Raise TypeError, World [] [Sent p.list_profiles] [])).
Proof.
  intros listed empty silent. split; [|split].
  - assert (answer p.list_profiles listed = PTuple [-1; 0; 1]) as Hans
      by reflexivity.
    split; [exact Hans|].
    exact (proj1 (profiles_listing listed) (-1) [0; 1] Hans).
  - assert (answer p.list_profiles empty = PTuple []) as Hans by reflexivity.
    split; [exact Hans|].
    exact (proj1 (proj2 (proj2 (profiles_listing empty))) (or_introl Hans)).
  - assert (answer p.list_profiles silent = PNone) as Hans by reflexivity.
    split; [exact Hans|].
    exact (proj2 (proj2 (proj2 (profiles_listing silent))) Hans).
Defined.

Lemma active_profile_is_exclusive_witness :
  let w := World (replies [PTuple [1; 0; 1]]) [] [] in
  answer p.list_profiles w = PTuple [1; 0; 1] /\
  is_active_profile {| profile_id := 1 |} w
  = (Ok true, World [] [Sent p.list_profiles] []) /\
  is_active_profile {| profile_id := 0 |} w
  = (Ok false, World [] [Sent p.list_profiles] []).
Proof.
  intros w.
  assert (answer p.list_profiles w = PTuple [1; 0; 1]) as Hans by reflexivity.
  split; [exact Hans|]. split.
  - exact (proj1 (active_profile_is_exclusive {| profile_id := 1 |}
                    {| profile_id := 0 |} 1 [0; 1] w Hans)).
  - exact (proj1 (active_profile_is_exclusive {| profile_id := 0 |}
                    {| profile_id := 1 |} 1 [0; 1] w Hans)).
Defined.

Lemma deactivate_only_when_active_witness :
  let w := World (replies [PTuple [1; 0; 1]; PInt 0]) [] [] in
  answer p.list_profiles w = PTuple [1; 0; 1] /\
  (0 <= 1 /\ 1 = profile_id {| profile_id := 1 |}) /\
  trace (Profile_deactivate {| profile_id := 1 |} w).2
  = [Sent p.list_profiles; Sent (p.activate_profile (-1))] /\
  ~ (0 <= 1 /\ 1 = profile_id {| profile_id := 0 |}) /\
  Profile_deactivate {| profile_id := 0 |} w
  = (Ok tt, World (replies [PInt 0]) [Sent p.list_profiles] []).
Proof.
  intros w.
  assert (answer p.list_profiles w = PTuple [1; 0; 1]) as Hans by reflexivity.
  assert (0 <= 1 /\ 1 = profile_id {| profile_id := 1 |}) as Hact
    by (split; [lia | reflexivity]).
  assert (~ (0 <= 1 /\ 1 = profile_id {| profile_id := 0 |})) as Hnot
    by (intros [_ Heq]; discriminate Heq).
  split; [exact Hans|]. split; [exact Hact|]. split.
  - exact (proj2 (proj1 (deactivate_only_when_active {| profile_id := 1 |}
                           1 [0; 1] w Hans) Hact)).
  - split; [exact Hnot|].
    exact (proj2 (deactivate_only_when_active {| profile_id := 0 |}
                    1 [0; 1] w Hans) Hnot).
Defined.


Lemma system_time_write_then_read_witness :
  let block := PBytes [232; 3; 0; 0; 254; 255] in
  let w := World (replies [block; block]) [] [] in
  - 2 ^ 31 <= 1000 <= 2 ^ 31 - 1 /\ -32768 <= -2 <= 32767 /\
  (_ ← ReadWriteSystemObject_write system_time (1000, -2);
   ReadWriteSystemObject_read system_time) w
  = (Ok (1000, -2),
     World [] [Sent (p.write_system_value [1] block);
               Sent (p.read_system_value [1] 6)] []).
Proof.
  intros block w.
  assert (- 2 ^ 31 <= 1000 <= 2 ^ 31 - 1) as Ht by lia.
  assert (-32768 <= -2 <= 32767) as Hs by lia.
  split; [exact Ht|]. split; [exact Hs|].
  assert (answer (p.write_system_value [1]
                    (PBytes (little_endian 4 (biased 32 1000)
                             ++ little_endian 2 (biased 16 (-2))))) w
          = PBytes (little_endian 4 (biased 32 1000)
                    ++ little_endian 2 (biased 16 (-2)))) as Hecho
    by reflexivity.
  assert (answer (p.read_system_value [1] 6)
            (sent (p.write_system_value [1]
                     (PBytes (little_endian 4 (biased 32 1000)
                              ++ little_endian 2 (biased 16 (-2))))) w)
          = PBytes (little_endian 4 (biased 32 1000)
                    ++ little_endian 2 (biased 16 (-2)))) as Hstored
    by reflexivity.
  exact (system_time_write_then_read 1000 (-2) w Ht Hs Hecho Hstored).
Defined.


